(** * TikTok daily processor (main.py, v5.4.0): orchestration layer

    A shallow embedding of [src/main.py]: the two functions
    [run_v35_enhancements] and [main], the pandas operations they apply to
    the per-market frames, and the collaborators they call
    ([daily_processor], [v35_enhancements], [discord_notify],
    [apify_fetcher]), which the orchestration layer only imports. *)

From Stdlib Require Import Ascii String.
From stdpp Require Import base option list gmap strings.

#[local] Set Warnings "-clear-no-such-hyp".

Local Open Scope string_scope.
Local Open Scope Z_scope.
Local Open Scope list_scope.

(** ** Frames

    A raw record is a Python dict; [pd.DataFrame(records)] turns a list of
    them into a frame with one row per record.  The join key
    ['webVideoUrl'] is the one column every record carries (the input
    boundary promises a stable URL per record); every other column lives
    in [cols].  In a frame every row has a cell for every column, NaN
    where its record had no such key. *)

(** The four labels [main.py] writes into the ['Market'] column, each an
    emoji followed by [BOTH], [US ONLY], [UK ONLY] or [SINGLE]. *)
Inductive MarketTag := BOTH | US_ONLY | UK_ONLY | SINGLE.

(** The status labels of the classifier. *)
Inductive Status := NEW | URGENT | HIGH | WATCH | SPIKING | STABLE.

(** A cell.  [VInt n] is the integer [n] of an int64 or object column;
    [VFloat x] is the float64 of integral value [x], which is what pandas
    stores when it converts an integer of a numeric column to float64 (see
    [float64_value]); [VNaN] is a missing value. *)
Inductive Cell :=
| VInt (n : Z)
| VFloat (x : Z)
| VStr (s : string)
| VMarket (m : MarketTag)
| VStatus (s : Status)
| VNaN.

(** The value of [float64(n)] for an integer [n] of the int64 range: [n]
    rounded to 53 significant bits, ties to even. *)
Definition float64_value (n : Z) : Z :=
  let a := Z.abs n in
  let e := Z.log2 a - 52 in
  if e <=? 0 then n
  else
    let q := a / 2 ^ e in
    let r := a mod 2 ^ e in
    let half := 2 ^ (e - 1) in
    let q' := if (half <? r) || ((r =? half) && Z.odd q) then q + 1 else q in
    Z.sgn n * (q' * 2 ^ e).

Record Row := mkRow {
  webVideoUrl : string;
  cols : gmap string Cell
}.

Abbreviation DataFrame := (list Row).

Module Pandas.

(** [df['webVideoUrl']] *)
Definition urls (df : DataFrame) : list string := webVideoUrl <$> df.

(** [set(df['webVideoUrl'])] *)
Definition url_set (df : DataFrame) : gset string := list_to_set (urls df).

(** [len(df)] *)
Definition len (df : DataFrame) : nat := length df.

(** The columns of a frame built from [records]: the union of their
    keys. *)
Definition columns_of (records : list Row) : gset string :=
  ⋃ ((λ r, dom (cols r)) <$> records).

(** The values of column [c] over [records], NaN where a record has no
    such key. *)
Definition cells_of (c : string) (records : list Row) : list Cell :=
  (λ r, default VNaN (cols r !! c)) <$> records.

Definition numeric (v : Cell) : bool :=
  match v with VInt _ | VFloat _ | VNaN => true | _ => false end.

Definition missing_or_float (v : Cell) : bool :=
  match v with VFloat _ | VNaN => true | _ => false end.

(** The dtype pandas infers for a column of int64 counters, strings and
    missing values: float64 when every value is a number or missing and
    one at least is missing or a float; otherwise the values are kept as
    they are (int64 for integers only, object when a string is among
    them). *)
Definition float_column (cells : list Cell) : bool :=
  forallb numeric cells && existsb missing_or_float cells.

(** A value stored in a float64 column: an integer is converted. *)
Definition as_float (v : Cell) : Cell :=
  match v with VInt n => VFloat (float64_value n) | _ => v end.

(** A record as a row of the frame built from [records]: the columns it
    has no key for hold NaN, and its integers in a float64 column are
    converted. *)
Definition fill (records : list Row) (r : Row) : Row :=
  mkRow (webVideoUrl r)
    (map_imap (λ c v, Some (if float_column (cells_of c records)
                            then as_float v else v))
       (cols r ∪ gset_to_gmap VNaN (columns_of records))).

(** [pd.DataFrame(records)] for a list of records, and the frame
    [pd.concat(..., ignore_index=True)] builds from the rows of its
    arguments. *)
Definition frame (records : list Row) : DataFrame :=
  fill records <$> records.

(** [df.drop_duplicates(subset=['webVideoUrl'], keep='first')]: rows are
    visited in order, a row is kept when its URL has not been seen. *)
Fixpoint drop_duplicates_seen (seen : gset string) (df : DataFrame) : DataFrame :=
  match df with
  | [] => []
  | r :: rest =>
      if decide (webVideoUrl r ∈ seen)
      then drop_duplicates_seen seen rest
      else r :: drop_duplicates_seen ({[webVideoUrl r]} ∪ seen) rest
  end.

Definition drop_duplicates (df : DataFrame) : DataFrame :=
  drop_duplicates_seen ∅ df.

(** The first row of [df] whose URL is [u]. *)
Definition first_with_url (u : string) (df : DataFrame) : option Row :=
  List.find (λ r, bool_decide (webVideoUrl r = u)) df.

(** All rows of [df] whose URL is [u], in order. *)
Definition rows_with_url (u : string) (df : DataFrame) : DataFrame :=
  filter (λ r, webVideoUrl r = u) df.

(** [df[c] = f(row)] for every row: a column assignment. *)
Definition set_col (c : string) (v : Cell) (r : Row) : Row :=
  mkRow (webVideoUrl r) (<[c := v]> (cols r)).

Definition assign (c : string) (f : Row → Cell) (df : DataFrame) : DataFrame :=
  (λ r, set_col c (f r) r) <$> df.

(** [c in df.columns]: a frame built from dicts has the union of their keys. *)
Definition has_column (c : string) (df : DataFrame) : bool :=
  existsb (λ r, bool_decide (is_Some (cols r !! c))) df.

(** [df[c]] as a list of cells, NaN where the record had no such key. *)
Definition column (c : string) (df : DataFrame) : list Cell :=
  (λ r, default VNaN (cols r !! c)) <$> df.

(** [df[c] = series] for a series aligned on the frame's index by
    position: a row past the end of the series gets NaN. *)
Fixpoint assign_series (c : string) (series : list Cell) (df : DataFrame) : DataFrame :=
  match df with
  | [] => []
  | r :: rest =>
      match series with
      | [] => set_col c VNaN r :: assign_series c [] rest
      | v :: vs => set_col c v r :: assign_series c vs rest
      end
  end.

End Pandas.

Import Pandas.

(** ** Deduplication by URL *)

Section DropDuplicates.

Implicit Types (df : DataFrame) (seen : gset string) (u : string) (r : Row).

Lemma urls_cons r df : urls (r :: df) = webVideoUrl r :: urls df.
Proof. reflexivity. Qed.

Lemma elem_of_urls u df : u ∈ urls df ↔ ∃ r, r ∈ df ∧ webVideoUrl r = u.
Proof.
  unfold urls. rewrite list_elem_of_fmap. split.
  - intros (r & -> & Hr). eauto.
  - intros (r & Hr & <-). eauto.
Qed.

Lemma elem_of_drop_duplicates_seen seen df u :
  u ∈ urls (drop_duplicates_seen seen df) ↔ u ∈ urls df ∧ u ∉ seen.
Proof.
  revert seen. induction df as [|r df IH]; intros seen; cbn [drop_duplicates_seen].
  - split; [intros H; inversion H | intros [H _]; inversion H].
  - destruct (decide (webVideoUrl r ∈ seen)) as [Hin|Hout].
    + rewrite IH, urls_cons, elem_of_cons. split.
      * intros [H1 H2]. auto.
      * intros [[->|H1] H2]; [contradiction | auto].
    + rewrite !urls_cons, !elem_of_cons, IH. split.
      * intros [->|[H1 H2]]; [auto|]. split; [auto|]. set_solver.
      * intros [[->|H1] H2]; [auto|].
        destruct (decide (u = webVideoUrl r)) as [->|Hne]; [auto|].
        right. split; [done|]. set_solver.
Qed.

Lemma NoDup_drop_duplicates_seen seen df :
  NoDup (urls (drop_duplicates_seen seen df)).
Proof.
  revert seen. induction df as [|r df IH]; intros seen; cbn [drop_duplicates_seen].
  - constructor.
  - destruct (decide (webVideoUrl r ∈ seen)); [apply IH|].
    rewrite urls_cons. constructor; [|apply IH].
    rewrite elem_of_drop_duplicates_seen. set_solver.
Qed.

Lemma sublist_drop_duplicates_seen seen df :
  sublist (drop_duplicates_seen seen df) df.
Proof.
  revert seen. induction df as [|r df IH]; intros seen; cbn [drop_duplicates_seen].
  - constructor.
  - destruct (decide (webVideoUrl r ∈ seen)).
    + apply sublist_cons, IH.
    + apply sublist_skip, IH.
Qed.

Lemma rows_with_url_absent u df : u ∉ urls df → rows_with_url u df = [].
Proof.
  unfold rows_with_url. induction df as [|r df IH]; [done|].
  rewrite urls_cons, not_elem_of_cons. intros [Hne Hu].
  rewrite filter_cons_False by congruence. by apply IH.
Qed.

Lemma rows_with_url_seen seen df u :
  u ∈ seen → rows_with_url u (drop_duplicates_seen seen df) = [].
Proof.
  intros Hu. apply rows_with_url_absent.
  rewrite elem_of_drop_duplicates_seen. tauto.
Qed.

Lemma rows_with_url_drop_duplicates_seen seen df u :
  u ∉ seen →
  rows_with_url u (drop_duplicates_seen seen df) =
    option_list (first_with_url u df).
Proof.
  revert seen. induction df as [|r df IH]; intros seen Hu; cbn [drop_duplicates_seen]; [done|].
  unfold first_with_url in *. cbn [find].
  destruct (decide (webVideoUrl r ∈ seen)) as [Hin|Hout].
  - rewrite bool_decide_eq_false_2 by (intros <-; contradiction).
    by apply IH.
  - unfold rows_with_url in *. rewrite filter_cons.
    destruct (decide (webVideoUrl r = u)) as [Heq|Hne].
    + rewrite bool_decide_eq_true_2 by done. simpl. f_equal.
      apply rows_with_url_seen. set_solver.
    + rewrite bool_decide_eq_false_2 by done. apply IH. set_solver.
Qed.

Lemma first_with_url_Some u df r :
  first_with_url u df = Some r → r ∈ df ∧ webVideoUrl r = u.
Proof.
  unfold first_with_url. intros H. apply find_some in H as [H1 H2].
  apply bool_decide_eq_true in H2. split; [by apply list_elem_of_In | done].
Qed.

Lemma first_with_url_is_Some u df :
  u ∈ urls df → is_Some (first_with_url u df).
Proof.
  intros (r & Hr & Heq)%elem_of_urls. unfold first_with_url.
  destruct (find _ df) eqn:E; [eauto|].
  eapply find_none in E; [|by apply list_elem_of_In].
  apply bool_decide_eq_false in E. contradiction.
Qed.

Lemma first_with_url_app_l u df1 df2 :
  u ∈ urls df1 → first_with_url u (df1 ++ df2) = first_with_url u df1.
Proof.
  unfold first_with_url. induction df1 as [|r df1 IH]; cbn [app find].
  - intros H; inversion H.
  - rewrite urls_cons, elem_of_cons. intros [->|H].
    + by rewrite bool_decide_eq_true_2.
    + destruct (bool_decide _); [done | by apply IH].
Qed.

Lemma first_with_url_fmap (f : Row → Row) u df :
  (∀ r, webVideoUrl (f r) = webVideoUrl r) →
  first_with_url u (f <$> df) = f <$> first_with_url u df.
Proof.
  intros Hf. unfold first_with_url. induction df as [|r df IH]; [done|].
  rewrite fmap_cons. cbn [find]. rewrite Hf.
  destruct (bool_decide (webVideoUrl r = u)); [done | apply IH].
Qed.

Lemma urls_frame (records : list Row) : urls (frame records) = urls records.
Proof. unfold frame, urls. by rewrite <- list_fmap_compose. Qed.

(** A cell of a row of a frame: the record's own value, converted when
    the column is float64, and NaN for a column the record has no key
    for. *)
Lemma fill_lookup (records : list Row) r c :
  cols (fill records r) !! c =
    match cols r !! c with
    | Some v => Some (if float_column (cells_of c records) then as_float v else v)
    | None => if decide (c ∈ columns_of records) then Some VNaN else None
    end.
Proof.
  unfold fill; cbn. rewrite map_lookup_imap, lookup_union, lookup_gset_to_gmap.
  destruct (cols r !! c) as [v|]; cbn.
  - by destruct (guard (c ∈ columns_of records)).
  - destruct (decide (c ∈ columns_of records)) as [Hin|Hout].
    + rewrite option_guard_True by done. cbn.
      by destruct (float_column (cells_of c records)).
    + by rewrite option_guard_False.
Qed.

Lemma as_float_idemp (v : Cell) : as_float (as_float v) = as_float v.
Proof. by destruct v. Qed.

(** An integer of at most 53 bits is a double: the conversion is exact up
    to [2 ^ 53] in magnitude. *)
Lemma float64_value_exact (n : Z) : Z.abs n ≤ 2 ^ 53 → float64_value n = n.
Proof.
  intros Hn. unfold float64_value.
  destruct (Z.leb_spec (Z.log2 (Z.abs n) - 52) 0) as [|Hbig]; [done|].
  assert (Z.abs n = 2 ^ 53) as Habs.
  { destruct (decide (Z.abs n < 2 ^ 53)) as [Hlt|]; [|lia].
    destruct (decide (Z.abs n = 0)) as [H0|].
    { rewrite H0 in Hbig. cbn in Hbig. lia. }
    apply Z.log2_lt_pow2 in Hlt; lia. }
  destruct (Z.abs_eq_or_opp n) as [Heq|Heq]; rewrite Heq in Habs.
  - by rewrite Habs.
  - assert (n = - 2 ^ 53) as -> by lia. done.
Qed.

Lemma elem_of_columns_of (records : list Row) c :
  c ∈ columns_of records ↔ ∃ r, r ∈ records ∧ is_Some (cols r !! c).
Proof.
  unfold columns_of. rewrite elem_of_union_list. split.
  - intros (X & (r & -> & Hr)%list_elem_of_fmap & Hc).
    exists r. split; [done|]. by apply elem_of_dom.
  - intros (r & Hr & Hc). exists (dom (cols r)). split.
    + apply list_elem_of_fmap. eauto.
    + by apply elem_of_dom.
Qed.

(** A frame has the columns of the records it is built from. *)
Lemma columns_of_frame (records : list Row) c :
  c ∈ columns_of (frame records) ↔ c ∈ columns_of records.
Proof.
  rewrite !elem_of_columns_of. unfold frame. split.
  - intros (r' & (r & -> & Hr)%list_elem_of_fmap & Hc).
    rewrite fill_lookup in Hc. destruct (cols r !! c) eqn:Hrc; [by eauto|].
    destruct (decide (c ∈ columns_of records)) as [Hin|]; [|by destruct Hc].
    by apply elem_of_columns_of.
  - intros (r & Hr & Hc). exists (fill records r). split.
    + apply list_elem_of_fmap. eauto.
    + rewrite fill_lookup. destruct Hc as [v ->]. by eexists.
Qed.

Lemma columns_of_app (l1 l2 : list Row) c :
  c ∈ columns_of (l1 ++ l2) ↔ c ∈ columns_of l1 ∨ c ∈ columns_of l2.
Proof.
  rewrite !elem_of_columns_of. setoid_rewrite elem_of_app. naive_solver.
Qed.

(** A column that every record holds as an integer stays an int64
    column. *)
Lemma float_column_ints (records : list Row) c :
  (∀ r, r ∈ records → ∃ m, cols r !! c = Some (VInt m)) →
  float_column (cells_of c records) = false.
Proof.
  intros Hint. unfold float_column.
  enough (existsb missing_or_float (cells_of c records) = false) as ->
    by apply andb_false_r.
  induction records as [|r records IH]; [done|].
  unfold cells_of. rewrite fmap_cons. cbn [existsb].
  destruct (Hint r) as [m ->]; [left|]. cbn.
  apply IH. intros r' Hr'. apply Hint. by right.
Qed.

Lemma drop_duplicates_urls df u :
  u ∈ urls (drop_duplicates df) ↔ u ∈ urls df.
Proof.
  unfold drop_duplicates. rewrite elem_of_drop_duplicates_seen. set_solver.
Qed.

Lemma drop_duplicates_NoDup df : NoDup (urls (drop_duplicates df)).
Proof. apply NoDup_drop_duplicates_seen. Qed.

Lemma drop_duplicates_rows df u :
  rows_with_url u (drop_duplicates df) = option_list (first_with_url u df).
Proof. apply rows_with_url_drop_duplicates_seen. set_solver. Qed.

Lemma drop_duplicates_nil_inv df : drop_duplicates df = [] → df = [].
Proof.
  destruct df as [|r df]; [done|]. unfold drop_duplicates. simpl.
  destruct (decide (webVideoUrl r ∈ (∅ : gset string))); [set_solver | done].
Qed.

End DropDuplicates.

(** C1.  Normalization deduplicates by URL keeping the first occurrence:
    the output of [drop_duplicates] has no URL twice, has exactly the URLs
    of the input, keeps the input's order, and for every URL of the input
    holds exactly one row, which is the first input row with that URL (so
    of two records sharing a URL with different counters the first one's
    values survive). *)
Theorem drop_duplicates_keeps_first (df : DataFrame) :
  NoDup (urls (drop_duplicates df)) ∧
  sublist (drop_duplicates df) df ∧
  ∀ u : string,
    (u ∈ urls (drop_duplicates df) ↔ u ∈ urls df) ∧
    rows_with_url u (drop_duplicates df) = option_list (first_with_url u df) ∧
    (u ∈ urls df →
     ∃ r, first_with_url u df = Some r ∧ rows_with_url u (drop_duplicates df) = [r]).
Proof.
  split; [apply drop_duplicates_NoDup|].
  split; [apply sublist_drop_duplicates_seen|].
  intros u. split; [apply drop_duplicates_urls|].
  split; [apply drop_duplicates_rows|].
  intros [r Hr]%first_with_url_is_Some. exists r. split; [done|].
  by rewrite drop_duplicates_rows, Hr.
Qed.

(** ** Exceptions, outcomes and the trace of collaborator calls *)

(** The exceptions the orchestration layer tells apart: [sys.exit] raises
    [SystemExit], which no [except Exception] catches; [ImportError] is
    what the guarded import catches; [Exception] stands for every other
    subclass of Python's [Exception]. *)
Inductive exn :=
| SystemExit (code : Z)
| ImportError (msg : string)
| Exception (msg : string).

(** [except Exception] *)
Definition is_Exception (e : exn) : bool :=
  match e with SystemExit _ => false | _ => true end.

(** [except ImportError] *)
Definition is_ImportError (e : exn) : bool :=
  match e with ImportError _ => true | _ => false end.

Inductive outcome (A : Type) :=
| Ok (a : A)
| Raise (e : exn).
Arguments Ok {A} a.
Arguments Raise {A} e.

#[global] Instance outcome_ret : MRet outcome := λ A a, Ok a.
#[global] Instance outcome_bind : MBind outcome := λ A B f m,
  match m with Ok a => f a | Raise e => Raise e end.

Definition returns {A} (m : outcome A) : Prop := ∃ a, m = Ok a.

(** A dict of [str -> int] ([stats]) and of [str -> str] (the generated
    file paths). *)
Abbreviation Stats := (gmap string Z).
Abbreviation Files := (gmap string string).

(** Raw data as the fetcher and the cache loader hand it over: a list of
    records or [None]. *)
Abbreviation Records := (option (list Row)).
Abbreviation Music := (option (list (gmap string Cell))).

(** Python truthiness of a list-or-None and of a dict. *)
Definition truthy {A} (x : option (list A)) : bool :=
  match x with Some (_ :: _) => true | _ => false end.

Definition truthy_dict {V} (d : gmap string V) : bool :=
  negb (bool_decide (size d = 0%nat)).

(** The records of a list-or-None, none for [None]. *)
Definition list_of (x : Records) : list Row := default [] x.

(** [pd.DataFrame(x)] *)
Definition DataFrame_of (x : Records) : DataFrame := frame (list_of x).

(** [pd.DataFrame(x) if x else pd.DataFrame()] *)
Definition frame_or_empty (x : Records) : DataFrame :=
  if truthy x then DataFrame_of x else [].

(** [set(pd.DataFrame(x)['webVideoUrl']) if x else set()] *)
Definition urls_or_empty (x : Records) : gset string :=
  if truthy x then url_set (DataFrame_of x) else ∅.

(** [pd.DataFrame(x)] when [x] is truthy, else [None]. *)
Definition frame_or_None (x : Records) : option DataFrame :=
  if truthy x then Some (DataFrame_of x) else None.

(** One entry per call of a collaborator that acts on the outside world,
    with the arguments it was passed. *)
Inductive event :=
| ProcessData (us_data uk_data : Records) (us_music uk_music : Music)
    (yesterday_us yesterday_uk : Records) (output_dir cache_dir : string)
| IntegrateWithDailyProcessor (us_df uk_df : DataFrame)
    (yesterday_us yesterday_uk : option DataFrame) (output_dir : string)
| GenerateDailyBriefing (combined_df : DataFrame)
    (yesterday : option DataFrame) (output_dir cache_path : string)
| AppendSummary (path text : string)
| SaveTodayCache (us_df uk_df : DataFrame) (cache_dir : string)
| SendDiscordNotification (stats : Stats).

(** A run: its outcome and the calls made, in order. *)
Definition prog (A : Type) : Type := outcome A * list event.

#[global] Instance prog_ret : MRet prog := λ A a, (Ok a, []).
#[global] Instance prog_bind : MBind prog := λ A B f m,
  match m with
  | (Ok a, t) => let '(r, t') := f a in (r, t ++ t')
  | (Raise e, t) => (Raise e, t)
  end.

Definition raise {A} (e : exn) : prog A := (Raise e, []).

(** A pure, possibly raising computation. *)
Definition lift {A} (m : outcome A) : prog A := (m, []).

(** A call of an outside collaborator: logged with its arguments. *)
Definition call {A} (ev : event) (m : outcome A) : prog A := (m, [ev]).

(** [try: m  except <catches>: h] *)
Definition try_except {A} (catches : exn → bool) (m : prog A) (h : exn → prog A) : prog A :=
  match m with
  | (Raise e, t) =>
      if catches e then let '(r, t') := h e in (r, t ++ t') else (Raise e, t)
  | returned => returned
  end.

(** [df.apply(f, axis=1)] and [series.apply(f)]: [f] on every element in
    order, the first exception ends the pass. *)
Fixpoint apply_each {A} (f : A → outcome Cell) (l : list A) : outcome (list Cell) :=
  match l with
  | [] => Ok []
  | x :: rest => v ← f x; vs ← apply_each f rest; mret (v :: vs)
  end.

(** [df.get('text', pd.Series(['']))] *)
Definition get_text (df : DataFrame) : list Cell :=
  if has_column "text" df then column "text" df else [VStr ""].

(** [pd.concat(frames, ignore_index=True)] *)
Definition concat (frames : list DataFrame) : outcome DataFrame :=
  match frames with
  | [] => Raise (Exception "No objects to concatenate")
  | _ => Ok (frame (List.concat frames))
  end.

(** [os.path.join(a, b)] for a relative [b]. *)
Fixpoint ends_with_slash (a : string) : bool :=
  match a with
  | EmptyString => false
  | String c EmptyString => bool_decide (c = "/"%char)
  | String _ rest => ends_with_slash rest
  end.

Definition path_join (a b : string) : string :=
  if bool_decide (a = "") then b
  else if ends_with_slash a then a +:+ b
  else a +:+ "/" +:+ b.

(** ** The collaborators

    [main.py] imports its collaborators; none of them is part of the
    orchestration layer.  Each is a field of the environment below, typed
    by how [main.py] calls it.  Any Python call can raise, so each returns
    an [outcome]. *)
Record Env := {
  (** [os.environ] *)
  environ : gmap string string;
  (** [datetime.now().strftime('%Y-%m-%d')] *)
  today : string;
  (** [os.makedirs(d, exist_ok=True)] *)
  makedirs : string → outcome unit;
  (** whether [from v35_enhancements import ...] succeeds *)
  import_v35_enhancements : outcome unit;
  (** [apify_fetcher] *)
  fetch_all_data : outcome (Records * Records * Music * Music);
  (** [daily_processor] *)
  load_yesterday_cache : string → outcome (Records * Records);
  process_data : Records → Records → Music → Music → Records → Records →
                 string → string → outcome Stats;
  save_today_cache : DataFrame → DataFrame → string → outcome unit;
  calculate_metrics : DataFrame → outcome DataFrame;
  calculate_status : DataFrame → Records → outcome DataFrame;
  get_author_name : Row → outcome Cell;
  detect_ai : Cell → outcome Cell;
  calculate_build_now : Row → outcome Cell;
  (** [v35_enhancements] *)
  integrate_with_daily_processor :
    DataFrame → DataFrame → option DataFrame → option DataFrame → string →
    outcome Files;
  generate_daily_briefing :
    DataFrame → option DataFrame → string → string → outcome string;
  (** [discord_notify] *)
  send_discord_notification : Stats → outcome unit;
  (** [open(path, 'a')] and the two writes *)
  append_summary : string → string → outcome unit
}.

(** [os.environ.get(key, default)] *)
Definition environ_get (E : Env) (key dflt : string) : string :=
  default dflt (environ E !! key).

(** ** [run_v35_enhancements] and [main] *)

Section Orchestration.

Context (E : Env).

(** [main.py] lines 46-62 (US) and 64-77 (UK): the same block twice,
    once per market, differing in the other market's raw data and in
    the single-market tag. *)
Definition prepare_frame (data yesterday other_data : Records) (single : MarketTag)
  : outcome DataFrame :=
  let df := frame_or_empty data in
  if bool_decide (0 < len df)%nat then
    let df := drop_duplicates df in
    df ← calculate_metrics E df;
    authors ← apply_each (get_author_name E) df;
    let df := assign_series "author" authors df in
    ai ← apply_each (detect_ai E) (get_text df);
    let df := assign_series "AI_CATEGORY" ai df in
    df ← calculate_status E df yesterday;
    build_now ← apply_each (calculate_build_now E) df;
    let df := assign_series "BUILD_NOW" build_now df in
    let other_urls := urls_or_empty other_data in
    let df := assign "Market"
                (λ r, VMarket (if decide (webVideoUrl r ∈ other_urls)
                               then BOTH else single)) df in
    let df := if has_column "status" df && negb (has_column "acceleration_status" df)
              then assign_series "acceleration_status" (column "status" df) df
              else df in
    mret df
  else mret df.

Definition run_v35_enhancements
    (us_data uk_data yesterday_us yesterday_uk : Records)
    (output_dir cache_dir : string) : prog Files :=
  imported ← try_except is_ImportError
               (_ ← lift (import_v35_enhancements E); mret true)
               (λ _, mret false);
  if negb imported then mret ∅ else
  us_df ← lift (prepare_frame us_data yesterday_us uk_data US_ONLY);
  uk_df ← lift (prepare_frame uk_data yesterday_uk us_data UK_ONLY);
  let yesterday_us_df := frame_or_None yesterday_us in
  let yesterday_uk_df := frame_or_None yesterday_uk in
  try_except is_Exception
    (enhanced_files ←
       call (IntegrateWithDailyProcessor us_df uk_df
               yesterday_us_df yesterday_uk_df output_dir)
            (integrate_with_daily_processor E us_df uk_df
               yesterday_us_df yesterday_uk_df output_dir);
     mret enhanced_files)
    (λ _, mret ∅).

(** [main.py] lines 178-184: the non-empty market frames, US first. *)
Definition concat_markets (us_data uk_data : Records) : outcome DataFrame :=
  concat (filter (λ df, 0 < len df)%nat
            [frame_or_empty us_data; frame_or_empty uk_data]).

(** [main.py] lines 202-208. *)
Definition combined_yesterday (yesterday_us yesterday_uk : Records) : Records :=
  if truthy yesterday_us && truthy yesterday_uk
  then Some (list_of yesterday_us ++ list_of yesterday_uk)
  else if truthy yesterday_us then yesterday_us
  else if truthy yesterday_uk then yesterday_uk
  else None.

(** [main.py] lines 177-237: the body of the briefing's [try]. *)
Definition daily_briefing
    (us_data uk_data yesterday_us yesterday_uk : Records)
    (output_dir : string) : prog unit :=
  combined_df ← lift (concat_markets us_data uk_data);
  if bool_decide (0 < len combined_df)%nat then
    let combined_df := drop_duplicates combined_df in
    combined_df ← lift (calculate_metrics E combined_df);
    authors ← lift (apply_each (get_author_name E) combined_df);
    let combined_df := assign_series "author" authors combined_df in
    ai ← lift (apply_each (detect_ai E) (get_text combined_df));
    let combined_df := assign_series "AI_CATEGORY" ai combined_df in
    let us_urls := urls_or_empty us_data in
    let uk_urls := urls_or_empty uk_data in
    let both_urls := us_urls ∩ uk_urls in
    let combined_df :=
      assign "Market"
        (λ r, VMarket (if decide (webVideoUrl r ∈ both_urls)
                       then BOTH else SINGLE)) combined_df in
    let yesterday := combined_yesterday yesterday_us yesterday_uk in
    combined_df ← lift (calculate_status E combined_df yesterday);
    let combined_df :=
      if has_column "status" combined_df
      then assign_series "acceleration_status" (column "status" combined_df) combined_df
      else combined_df in
    let yesterday_combined_df := frame_or_None yesterday in
    let cache_dir_path := environ_get E "CACHE_DIR" "data" in
    let streak_cache := path_join cache_dir_path "velocity_streak_cache.json" in
    briefing_text ←
      call (GenerateDailyBriefing combined_df yesterday_combined_df
              output_dir streak_cache)
           (generate_daily_briefing E combined_df yesterday_combined_df
              output_dir streak_cache);
    let summary_path := output_dir +:+ "/SUMMARY_REPORT_" +:+ today E +:+ ".txt" in
    call (AppendSummary summary_path briefing_text)
         (append_summary E summary_path briefing_text)
  else mret tt.

(** [main.py] lines 246-255: one market's snapshot for the cache. *)
Definition snapshot (data : Records) : outcome DataFrame :=
  let df := frame_or_empty data in
  if bool_decide (0 < len df)%nat
  then calculate_metrics E (drop_duplicates df)
  else mret df.

(** [stats['enhanced_files'] = len(enhanced_files)] when the dict is
    not empty. *)
Definition add_enhancement_info (stats : Stats) (enhanced_files : Files) : Stats :=
  if truthy_dict enhanced_files
  then <["enhanced_files" := Z.of_nat (size enhanced_files)]> stats
  else stats.

(** [main()], without its prints.  The two [os.makedirs] calls come
    first, outside any [try]; they are not logged as calls. *)
Definition main : prog unit :=
  let output_dir := environ_get E "OUTPUT_DIR" "output" in
  let cache_dir := environ_get E "CACHE_DIR" "data" in
  _ ← lift (makedirs E output_dir);
  _ ← lift (makedirs E cache_dir);
  '(us_data, uk_data, us_music, uk_music) ← lift (fetch_all_data E);
  if negb (truthy us_data) && negb (truthy uk_data)
  then raise (SystemExit 1)
  else
    '(yesterday_us, yesterday_uk) ← lift (load_yesterday_cache E cache_dir);
    stats ← call (ProcessData us_data uk_data us_music uk_music
                    yesterday_us yesterday_uk output_dir cache_dir)
                 (process_data E us_data uk_data us_music uk_music
                    yesterday_us yesterday_uk output_dir cache_dir);
    enhanced_files ← run_v35_enhancements us_data uk_data
                       yesterday_us yesterday_uk output_dir cache_dir;
    let stats := add_enhancement_info stats enhanced_files in
    _ ← try_except is_Exception
          (daily_briefing us_data uk_data yesterday_us yesterday_uk output_dir)
          (λ _, mret tt);
    us_df ← lift (snapshot us_data);
    uk_df ← lift (snapshot uk_data);
    _ ← call (SaveTodayCache us_df uk_df cache_dir)
             (save_today_cache E us_df uk_df cache_dir);
    call (SendDiscordNotification stats) (send_discord_notification E stats).

(** The script: the imports at the top of the file (line 22 imports
    [v35_enhancements] unguarded), then [main()]. *)
Definition script : prog unit :=
  _ ← lift (import_v35_enhancements E);
  main.

End Orchestration.

(** ** Column assignments keep the rows and the other columns *)

Section Columns.

Implicit Types (df : DataFrame) (r : Row) (c : string).

Lemma urls_assign_series c series df : urls (assign_series c series df) = urls df.
Proof.
  revert series. induction df as [|r df IH]; intros series; [done|].
  destruct series; cbn [assign_series]; rewrite !urls_cons, IH; done.
Qed.

Lemma urls_assign c f df : urls (assign c f df) = urls df.
Proof. unfold assign, urls. rewrite <- list_fmap_compose. done. Qed.

Lemma elem_of_assign c f df r' :
  r' ∈ assign c f df ↔ ∃ r, r ∈ df ∧ r' = set_col c (f r) r.
Proof.
  unfold assign. rewrite list_elem_of_fmap. split; intros (r & H1 & H2); eauto.
Qed.

Lemma elem_of_assign_series c series df r' :
  r' ∈ assign_series c series df → ∃ r v, r ∈ df ∧ r' = set_col c v r.
Proof.
  revert series. induction df as [|r df IH]; intros series; cbn [assign_series].
  - intros H; inversion H.
  - destruct series as [|v vs]; rewrite elem_of_cons; intros [->|H].
    + exists r, VNaN. split; [left | done].
    + destruct (IH _ H) as (r0 & v0 & H1 & H2).
      exists r0, v0. split; [by right | done].
    + exists r, v. split; [left | done].
    + destruct (IH _ H) as (r0 & v0 & H1 & H2).
      exists r0, v0. split; [by right | done].
Qed.

Lemma set_col_url c v r : webVideoUrl (set_col c v r) = webVideoUrl r.
Proof. reflexivity. Qed.

Lemma set_col_lookup c v r : cols (set_col c v r) !! c = Some v.
Proof. unfold set_col; cbn. apply lookup_insert_eq. Qed.

Lemma set_col_lookup_ne c c' v r :
  c ≠ c' → cols (set_col c v r) !! c' = cols r !! c'.
Proof. intros Hne. unfold set_col; cbn. by apply lookup_insert_ne. Qed.

Lemma assign_series_nil_inv c series df : assign_series c series df = [] → df = [].
Proof. destruct df; [done|]. destruct series; discriminate. Qed.

End Columns.

(** ** Outcomes *)

Lemma outcome_bind_Ok {A B} (m : outcome A) (f : A → outcome B) (b : B) :
  m ≫= f = Ok b ↔ ∃ a, m = Ok a ∧ f a = Ok b.
Proof.
  destruct m as [a|e]; cbn.
  - split; [eauto | by intros (a' & [= <-] & H)].
  - split; [done | by intros (a' & [=] & _)].
Qed.

Lemma apply_each_Ok_length {A} (f : A → outcome Cell) (l : list A) (vs : list Cell) :
  apply_each f l = Ok vs → length vs = length l.
Proof.
  revert vs. induction l as [|x l IH]; intros vs; cbn [apply_each].
  - by intros [= <-].
  - intros (v & Hv & (vs' & Hvs & [= <-])%outcome_bind_Ok)%outcome_bind_Ok.
    cbn. f_equal. by apply IH.
Qed.

Lemma apply_each_returns {A} (f : A → outcome Cell) (l : list A) :
  (∀ x, returns (f x)) → returns (apply_each f l).
Proof.
  intros Hf. induction l as [|x l [vs IH]]; cbn [apply_each].
  - by eexists.
  - destruct (Hf x) as [v ->]. rewrite IH. by eexists.
Qed.

(** The tag in a row's ['Market'] column. *)
Definition market_tag (r : Row) : option Cell := cols r !! "Market".

(** A frame-to-frame collaborator that keeps the URL column as it is
    (it adds or rewrites other columns only). *)
Definition keeps_urls (f : DataFrame → outcome DataFrame) : Prop :=
  ∀ df df', f df = Ok df' → urls df' = urls df.

(** ** The per-market frames handed to the enhancement stage *)

Section PrepareFrame.

Context (E : Env).

Implicit Types (data yesterday other : Records) (single : MarketTag).

(** The lambda of lines 57-59 and 73-75. *)
Definition tagger other single (r : Row) : Cell :=
  VMarket (if decide (webVideoUrl r ∈ urls_or_empty other) then BOTH else single).

(** Lines 61-62 and 76-77. *)
Definition map_status_column (df : DataFrame) : DataFrame :=
  if has_column "status" df && negb (has_column "acceleration_status" df)
  then assign_series "acceleration_status" (column "status" df) df
  else df.

Lemma frame_or_empty_eq data : frame_or_empty data = DataFrame_of data.
Proof. by destruct data as [[|r l]|]. Qed.

Lemma truthy_frame data : truthy data = bool_decide (0 < len (frame_or_empty data))%nat.
Proof.
  by destruct data as [[|r l]|].
Qed.

Lemma urls_or_empty_spec data u :
  u ∈ urls_or_empty data ↔ u ∈ urls (frame_or_empty data).
Proof.
  unfold urls_or_empty, frame_or_empty, url_set.
  destruct (truthy data); [by rewrite elem_of_list_to_set | set_solver].
Qed.

Lemma prepare_frame_empty data yesterday other single :
  frame_or_empty data = [] → prepare_frame E data yesterday other single = Ok [].
Proof. intros H. unfold prepare_frame. rewrite H. done. Qed.

Lemma prepare_frame_Ok_inv data yesterday other single df :
  frame_or_empty data ≠ [] →
  prepare_frame E data yesterday other single = Ok df →
  ∃ df1 df2 authors ai build_now,
    calculate_metrics E (drop_duplicates (frame_or_empty data)) = Ok df1 ∧
    calculate_status E
      (assign_series "AI_CATEGORY" ai (assign_series "author" authors df1))
      yesterday = Ok df2 ∧
    df = map_status_column
           (assign "Market" (tagger other single)
              (assign_series "BUILD_NOW" build_now df2)).
Proof.
  intros Hne. unfold prepare_frame.
  rewrite bool_decide_eq_true_2
    by (destruct (frame_or_empty data); [done | cbn; lia]).
  intros (df1 & H1 & (authors & _ & (ai & _ & (df2 & H2 &
    (build_now & _ & [= <-])%outcome_bind_Ok)%outcome_bind_Ok
    )%outcome_bind_Ok)%outcome_bind_Ok)%outcome_bind_Ok.
  by exists df1, df2, authors, ai, build_now.
Qed.

Lemma map_status_column_urls df : urls (map_status_column df) = urls df.
Proof.
  unfold map_status_column. destruct (_ && _); [|done].
  apply urls_assign_series.
Qed.

Lemma map_status_column_market df r' :
  r' ∈ map_status_column df →
  ∃ r, r ∈ df ∧ webVideoUrl r' = webVideoUrl r ∧ market_tag r' = market_tag r.
Proof.
  unfold map_status_column. destruct (_ && _); [|by eauto].
  intros (r & v & Hr & ->)%elem_of_assign_series.
  exists r. split; [done|]. split; [done|].
  unfold market_tag. by rewrite set_col_lookup_ne.
Qed.

(** Every row of a prepared frame carries the tag the lambda computes
    from its own URL. *)
Lemma prepare_frame_market data yesterday other single df r :
  prepare_frame E data yesterday other single = Ok df →
  r ∈ df →
  market_tag r = Some (tagger other single r).
Proof.
  intros Hp Hr.
  destruct (decide (frame_or_empty data = [])) as [He|Hne].
  { rewrite prepare_frame_empty in Hp by done.
    injection Hp as <-. inversion Hr. }
  destruct (prepare_frame_Ok_inv _ _ _ _ _ Hne Hp)
    as (df1 & df2 & authors & ai & build_now & _ & _ & ->).
  apply map_status_column_market in Hr as (r1 & Hr1 & Hu & ->).
  apply elem_of_assign in Hr1 as (r0 & _ & ->).
  unfold market_tag. rewrite set_col_lookup. unfold tagger.
  by rewrite Hu, !set_col_url.
Qed.

(** With collaborators that keep the URL column, a prepared frame has
    the URLs of the deduplicated raw data, in order. *)
Lemma prepare_frame_urls data yesterday other single df :
  keeps_urls (calculate_metrics E) →
  keeps_urls (λ df, calculate_status E df yesterday) →
  prepare_frame E data yesterday other single = Ok df →
  urls df = urls (drop_duplicates (frame_or_empty data)).
Proof.
  intros Hcm Hcs Hp.
  destruct (decide (frame_or_empty data = [])) as [He|Hne].
  { rewrite prepare_frame_empty in Hp by done.
    injection Hp as <-. by rewrite He. }
  destruct (prepare_frame_Ok_inv _ _ _ _ _ Hne Hp)
    as (df1 & df2 & authors & ai & build_now & H1 & H2 & ->).
  rewrite map_status_column_urls, urls_assign, urls_assign_series.
  rewrite (Hcs _ _ H2), !urls_assign_series.
  by apply Hcm.
Qed.

(** The block itself raises nothing: it returns whenever the
    collaborators it calls do. *)
Lemma prepare_frame_returns data yesterday other single :
  (∀ df, returns (calculate_metrics E df)) →
  (∀ df, returns (calculate_status E df yesterday)) →
  (∀ r, returns (get_author_name E r)) →
  (∀ c, returns (detect_ai E c)) →
  (∀ r, returns (calculate_build_now E r)) →
  returns (prepare_frame E data yesterday other single).
Proof.
  intros Hcm Hcs Hau Hai Hbn. unfold prepare_frame.
  destruct (bool_decide _); [|by eexists].
  destruct (Hcm (drop_duplicates (frame_or_empty data))) as [df1 ->]. cbn.
  destruct (apply_each_returns (get_author_name E) df1 Hau) as [authors ->]. cbn.
  destruct (apply_each_returns (detect_ai E)
              (get_text (assign_series "author" authors df1)) Hai) as [ai ->]. cbn.
  destruct (Hcs (assign_series "AI_CATEGORY" ai
                   (assign_series "author" authors df1))) as [df2 ->]. cbn.
  destruct (apply_each_returns (calculate_build_now E) df2 Hbn) as [bn ->]. cbn.
  by eexists.
Qed.

End PrepareFrame.

(** ** Runs *)

Arguments prepare_frame : simpl never.
Arguments snapshot : simpl never.
Arguments concat_markets : simpl never.
Arguments drop_duplicates : simpl never.

Ltac prog_simpl :=
  unfold mbind, prog_bind, mret, prog_ret, lift, call, raise, try_except; cbn.

Section Runs.

Context (E : Env).

(** What [run_v35_enhancements] does, case by case. *)
Lemma run_v35_enhancements_spec us_data uk_data yesterday_us yesterday_uk od cd :
  run_v35_enhancements E us_data uk_data yesterday_us yesterday_uk od cd =
    match import_v35_enhancements E with
    | Raise e => if is_ImportError e then (Ok ∅, []) else (Raise e, [])
    | Ok _ =>
        match prepare_frame E us_data yesterday_us uk_data US_ONLY with
        | Raise e => (Raise e, [])
        | Ok us_df =>
            match prepare_frame E uk_data yesterday_uk us_data UK_ONLY with
            | Raise e => (Raise e, [])
            | Ok uk_df =>
                let y_us := frame_or_None yesterday_us in
                let y_uk := frame_or_None yesterday_uk in
                (match integrate_with_daily_processor E us_df uk_df y_us y_uk od with
                 | Ok files => Ok files
                 | Raise e => if is_Exception e then Ok ∅ else Raise e
                 end,
                 [IntegrateWithDailyProcessor us_df uk_df y_us y_uk od])
            end
        end
    end.
Proof.
  unfold run_v35_enhancements. prog_simpl.
  destruct (import_v35_enhancements E) as [[]|e]; cbn.
  - destruct (prepare_frame E us_data _ _ _) as [us_df|e]; cbn; [|done].
    destruct (prepare_frame E uk_data _ _ _) as [uk_df|e]; cbn; [|done].
    destruct (integrate_with_daily_processor _ _ _ _ _ _) as [files|e]; cbn; [done|].
    by destruct (is_Exception e).
  - by destruct (is_ImportError e).
Qed.

End Runs.

(** Collaborators that return normally, and enhancement-stage failures
    that are ordinary exceptions. *)



(** The [daily_processor] functions that build a frame's columns
    return. *)
Record helpers_return (E : Env) : Prop := {
  hr_metrics : ∀ df, returns (calculate_metrics E df);
  hr_status : ∀ df y, returns (calculate_status E df y);
  hr_author : ∀ r, returns (get_author_name E r);
  hr_ai : ∀ c, returns (detect_ai E c);
  hr_build_now : ∀ r, returns (calculate_build_now E r)
}.


Definition briefing_event (ev : event) : Prop :=
  match ev with
  | GenerateDailyBriefing _ _ _ _ | AppendSummary _ _ => True
  | _ => False
  end.

Definition integrate_event (ev : event) : Prop :=
  match ev with
  | IntegrateWithDailyProcessor _ _ _ _ _ => True
  | _ => False
  end.

Section MainRuns.

Context (E : Env).

Lemma run_v35_enhancements_events us uk yus yuk od cd :
  Forall integrate_event (snd (run_v35_enhancements E us uk yus yuk od cd)).
Proof.
  rewrite run_v35_enhancements_spec.
  destruct (import_v35_enhancements E) as [[]|e]; [|by destruct (is_ImportError e)].
  destruct (prepare_frame E us _ _ _); [|done].
  destruct (prepare_frame E uk _ _ _); [|done].
  cbn. by repeat constructor.
Qed.

Lemma daily_briefing_events us uk yus yuk od :
  Forall briefing_event (snd (daily_briefing E us uk yus yuk od)).
Proof.
  unfold daily_briefing. prog_simpl.
  destruct (concat_markets us uk) as [df|e]; cbn; [|done].
  destruct (bool_decide _); cbn; [|done].
  destruct (calculate_metrics E _) as [df1|e]; cbn; [|done].
  destruct (apply_each (get_author_name E) df1) as [authors|e]; cbn; [|done].
  destruct (apply_each (detect_ai E) _) as [ai|e]; cbn; [|done].
  destruct (calculate_status E _ _) as [df2|e]; cbn; [|done].
  destruct (generate_daily_briefing E _ _ _ _) as [text|e]; cbn;
    by repeat constructor.
Qed.

Lemma try_except_trace {A} catches (m : prog A) (a : A) :
  snd (try_except catches m (λ _, mret a)) = snd m.
Proof.
  destruct m as [[a'|e] t]; cbn; [done|].
  destruct (catches e); cbn; [apply app_nil_r | done].
Qed.


Lemma concat_markets_returns us uk :
  ¬ (truthy us = false ∧ truthy uk = false) →
  ∃ df, concat_markets us uk = Ok df ∧ df ≠ [].
Proof.
  intros Hne. unfold concat_markets, frame_or_empty.
  destruct us as [[|r l]|], uk as [[|r' l']|]; cbn in *;
    try (exfalso; apply Hne; by split);
    rewrite ?filter_cons_True, ?filter_cons_False, ?filter_nil by (cbn; lia);
    eexists; (split; [reflexivity | by cbn]).
Qed.


End MainRuns.

Section MainSpec.

Context (E : Env).

Definition no_data (us_data uk_data : Records) : Prop :=
  truthy us_data = false ∧ truthy uk_data = false.

(** [main] step by step: where it can stop, with which outcome, and
    which calls it has made by then. *)
Lemma main_spec :
  main E =
    let od := environ_get E "OUTPUT_DIR" "output" in
    let cd := environ_get E "CACHE_DIR" "data" in
    match makedirs E od with
    | Raise e => (Raise e, [])
    | Ok _ =>
    match makedirs E cd with
    | Raise e => (Raise e, [])
    | Ok _ =>
    match fetch_all_data E with
    | Raise e => (Raise e, [])
    | Ok (us, uk, um, km) =>
      if negb (truthy us) && negb (truthy uk) then (Raise (SystemExit 1), [])
      else
      match load_yesterday_cache E cd with
      | Raise e => (Raise e, [])
      | Ok (yus, yuk) =>
        let pd := ProcessData us uk um km yus yuk od cd in
        match process_data E us uk um km yus yuk od cd with
        | Raise e => (Raise e, [pd])
        | Ok stats =>
          let enh := run_v35_enhancements E us uk yus yuk od cd in
          match fst enh with
          | Raise e => (Raise e, pd :: snd enh)
          | Ok files =>
            let br := try_except is_Exception
                        (daily_briefing E us uk yus yuk od) (λ _, mret tt) in
            match fst br with
            | Raise e => (Raise e, pd :: snd enh ++ snd br)
            | Ok _ =>
              match snapshot E us with
              | Raise e => (Raise e, pd :: snd enh ++ snd br)
              | Ok us_df =>
                match snapshot E uk with
                | Raise e => (Raise e, pd :: snd enh ++ snd br)
                | Ok uk_df =>
                  let sv := SaveTodayCache us_df uk_df cd in
                  match save_today_cache E us_df uk_df cd with
                  | Raise e => (Raise e, pd :: snd enh ++ snd br ++ [sv])
                  | Ok _ =>
                    let stats' := add_enhancement_info stats files in
                    (send_discord_notification E stats',
                     pd :: snd enh ++ snd br ++
                       [sv; SendDiscordNotification stats'])
                  end
                end
              end
            end
          end
        end
      end
    end
    end
    end.
Proof.
  unfold main. cbn zeta.
  set (od := environ_get E "OUTPUT_DIR" "output").
  set (cd := environ_get E "CACHE_DIR" "data").
  unfold mbind at 1, prog_bind, lift.
  destruct (makedirs E od) as [[]|e]; [|done].
  unfold mbind at 1.
  destruct (makedirs E cd) as [[]|e]; [|done].
  unfold mbind at 1.
  destruct (fetch_all_data E) as [[[[us uk] um] km]|e]; [|done].
  destruct (negb (truthy us) && negb (truthy uk)); [done|].
  unfold mbind at 1.
  destruct (load_yesterday_cache E cd) as [[yus yuk]|e]; [|done].
  unfold mbind at 1, call.
  destruct (process_data E us uk um km yus yuk od cd) as [stats|e]; [|done].
  unfold mbind at 1.
  destruct (run_v35_enhancements E us uk yus yuk od cd) as [[files|e] t1];
    cbn [fst snd]; [|done].
  unfold mbind at 1.
  destruct (try_except is_Exception _ _) as [[[]|e] t2]; cbn [fst snd];
    [|by rewrite app_nil_l].
  unfold mbind at 1.
  destruct (snapshot E us) as [us_df|e]; [|by rewrite !app_nil_l, app_nil_r].
  unfold mbind at 1.
  destruct (snapshot E uk) as [uk_df|e]; [|by rewrite !app_nil_l, !app_nil_r].
  unfold mbind at 1.
  destruct (save_today_cache E us_df uk_df cd) as [[]|e]; rewrite !app_nil_l; done.
Qed.

End MainSpec.

(** ** What reaches the cache and the Notifier *)

Section MainCalls.

Context (E : Env).

Let od := environ_get E "OUTPUT_DIR" "output".
Let cd := environ_get E "CACHE_DIR" "data".

Lemma not_integrate_event_enh ev us uk yus yuk :
  ¬ integrate_event ev → ev ∉ snd (run_v35_enhancements E us uk yus yuk od cd).
Proof.
  intros Hev Hin.
  pose proof (run_v35_enhancements_events E us uk yus yuk od cd) as HF.
  rewrite Forall_forall in HF. by apply Hev, HF.
Qed.

Lemma not_briefing_event_br ev us uk yus yuk :
  ¬ briefing_event ev →
  ev ∉ snd (try_except is_Exception (daily_briefing E us uk yus yuk od) (λ _, mret tt)).
Proof.
  intros Hev Hin. rewrite try_except_trace in Hin.
  pose proof (daily_briefing_events E us uk yus yuk od) as HF.
  rewrite Forall_forall in HF. by apply Hev, HF.
Qed.

Ltac trace_cases H :=
  cbn [snd] in H;
  repeat (rewrite ?elem_of_cons, ?elem_of_app, ?elem_of_nil in H);
  repeat match type of H with
    | _ ∨ _ => destruct H as [H|H]
    | _ ∈ snd (run_v35_enhancements _ _ _ _ _ _ _) =>
        exfalso; revert H; apply not_integrate_event_enh; by intros []
    | _ ∈ snd (try_except _ _ _) =>
        exfalso; revert H; apply not_briefing_event_br; by intros []
    | False => destruct H
    | _ = _ => try discriminate H
    end.

Ltac main_cases H :=
  rewrite main_spec in H; cbn zeta in H; fold od cd in H;
  destruct (makedirs E od) as [[]|?]; [|by inversion H];
  destruct (makedirs E cd) as [[]|?]; [|by inversion H];
  destruct (fetch_all_data E) as [[[[us uk] um] km]|?]; [|by inversion H];
  destruct (negb (truthy us) && negb (truthy uk)) eqn:Hdata; [by inversion H|];
  destruct (load_yesterday_cache E cd) as [[yus yuk]|?]; [|by inversion H];
  destruct (process_data E us uk um km yus yuk od cd) as [stats|?] eqn:Hpd;
    [|by trace_cases H];
  destruct (fst (run_v35_enhancements E us uk yus yuk od cd)) as [files|?] eqn:Henh;
    [|by trace_cases H];
  destruct (fst (try_except is_Exception
                   (daily_briefing E us uk yus yuk od) (λ _, mret tt)))
    as [[]|?] eqn:Hbr;
    [|by trace_cases H];
  destruct (snapshot E us) as [us_df|?] eqn:Hus; [|by trace_cases H];
  destruct (snapshot E uk) as [uk_df|?] eqn:Huk; [|by trace_cases H];
  destruct (save_today_cache E us_df uk_df cd) as [[]|?] eqn:Hsave;
  trace_cases H.

Lemma no_data_false us uk :
  negb (truthy us) && negb (truthy uk) = false → ¬ no_data us uk.
Proof. intros H [H1 H2]. by rewrite H1, H2 in H. Qed.

(** Every call of [save_today_cache] that [main] makes passes the two
    snapshots of lines 246-255. *)
Lemma save_today_cache_call (a b : DataFrame) dir :
  SaveTodayCache a b dir ∈ snd (main E) →
  ∃ us uk um km,
    fetch_all_data E = Ok (us, uk, um, km) ∧ ¬ no_data us uk ∧
    snapshot E us = Ok a ∧ snapshot E uk = Ok b ∧ dir = cd.
Proof.
  intros H. main_cases H;
    injection H as -> -> ->; exists us, uk, um, km;
    by auto using no_data_false.
Qed.

(** Every call of the Notifier that [main] makes passes the stats of
    standard processing after [add_enhancement_info]. *)
Lemma send_discord_notification_call stats' :
  SendDiscordNotification stats' ∈ snd (main E) →
  ∃ us uk um km yus yuk stats files,
    fetch_all_data E = Ok (us, uk, um, km) ∧
    load_yesterday_cache E cd = Ok (yus, yuk) ∧
    process_data E us uk um km yus yuk od cd = Ok stats ∧
    fst (run_v35_enhancements E us uk yus yuk od cd) = Ok files ∧
    stats' = add_enhancement_info stats files.
Proof.
  intros H. main_cases H.
  injection H as ->. by exists us, uk, um, km, yus, yuk, stats, files.
Qed.

End MainCalls.

Section Completion.

Context (E : Env).

Let od := environ_get E "OUTPUT_DIR" "output".
Let cd := environ_get E "CACHE_DIR" "data".

Lemma snapshot_spec data df :
  snapshot E data = Ok df →
  (truthy data = false ∧ df = []) ∨
  (truthy data = true ∧
   calculate_metrics E (drop_duplicates (DataFrame_of data)) = Ok df).
Proof.
  unfold snapshot. rewrite <- truthy_frame, frame_or_empty_eq.
  destruct (truthy data) eqn:Ht; [by right|].
  intros [= <-]. left. split; [done|]. by destruct data as [[|]|].
Qed.





End Completion.

(** ** Cross-market tagging *)

Lemma integrate_call_frames (E : Env) (us uk yus yuk : Records) (od cd : string)
    (us_df uk_df : DataFrame) (y_us y_uk : option DataFrame) (o : string) :
  IntegrateWithDailyProcessor us_df uk_df y_us y_uk o
    ∈ snd (run_v35_enhancements E us uk yus yuk od cd) →
  prepare_frame E us yus uk US_ONLY = Ok us_df ∧
  prepare_frame E uk yuk us UK_ONLY = Ok uk_df.
Proof.
  rewrite run_v35_enhancements_spec.
  destruct (import_v35_enhancements E) as [[]|e];
    [|destruct (is_ImportError e); intros H; inversion H].
  destruct (prepare_frame E us _ _ _) as [a|e]; [|intros H; inversion H].
  destruct (prepare_frame E uk _ _ _) as [b|e]; [|intros H; inversion H].
  cbn. rewrite list_elem_of_singleton. by intros [= -> -> _ _ _].
Qed.

Lemma tagged_both_iff (other : Records) (single : MarketTag) (r : Row) :
  single ≠ BOTH →
  (tagger other single r = VMarket BOTH ↔
   webVideoUrl r ∈ urls (frame_or_empty other)).
Proof.
  intros Hs. unfold tagger.
  destruct (decide (webVideoUrl r ∈ urls_or_empty other)) as [Hin|Hout].
  - split; [intros _; by apply urls_or_empty_spec | done].
  - split; [intros [= ->]; done |].
    intros Hin. by apply urls_or_empty_spec in Hin.
Qed.

Lemma prepared_tag_both (E : Env) (data yesterday other : Records)
    (single : MarketTag) (df : DataFrame) (r : Row) :
  single ≠ BOTH →
  prepare_frame E data yesterday other single = Ok df →
  r ∈ df →
  (market_tag r = Some (VMarket BOTH) ↔
   webVideoUrl r ∈ urls (frame_or_empty other)).
Proof.
  intros Hs Hp Hr. rewrite (prepare_frame_market E _ _ _ _ _ _ Hp Hr).
  rewrite <- (tagged_both_iff other single r Hs).
  split; congruence.
Qed.

(** C3.  Cross-market tagging is symmetric.  For the two frames
    [run_v35_enhancements] hands to the enhancement stage, with
    [calculate_metrics] and [calculate_status] keeping the URL column: a
    URL present in both frames is tagged BOTH on every row that carries it
    in either frame, and a URL has a row tagged BOTH in the US frame
    exactly when it has one in the UK frame. *)
Theorem cross_market_tagging_symmetric (E : Env) (us uk yus yuk : Records)
    (od cd : string) (us_df uk_df : DataFrame) (y_us y_uk : option DataFrame)
    (o : string) :
  keeps_urls (calculate_metrics E) →
  (∀ y, keeps_urls (λ df, calculate_status E df y)) →
  IntegrateWithDailyProcessor us_df uk_df y_us y_uk o
    ∈ snd (run_v35_enhancements E us uk yus yuk od cd) →
  ∀ u : string,
    (u ∈ urls us_df → u ∈ urls uk_df →
     (∀ r, r ∈ us_df → webVideoUrl r = u → market_tag r = Some (VMarket BOTH)) ∧
     (∀ r, r ∈ uk_df → webVideoUrl r = u → market_tag r = Some (VMarket BOTH))) ∧
    ((∃ r, r ∈ us_df ∧ webVideoUrl r = u ∧ market_tag r = Some (VMarket BOTH)) ↔
     (∃ r, r ∈ uk_df ∧ webVideoUrl r = u ∧ market_tag r = Some (VMarket BOTH))).
Proof.
  intros Hcm Hcs [Hus Huk]%integrate_call_frames u.
  pose proof (prepare_frame_urls E _ _ _ _ _ Hcm (Hcs yus) Hus) as HUus.
  pose proof (prepare_frame_urls E _ _ _ _ _ Hcm (Hcs yuk) Huk) as HUuk.
  assert (∀ v, v ∈ urls us_df ↔ v ∈ urls (frame_or_empty us)) as Us
    by (intros v; by rewrite HUus, drop_duplicates_urls).
  assert (∀ v, v ∈ urls uk_df ↔ v ∈ urls (frame_or_empty uk)) as Uk
    by (intros v; by rewrite HUuk, drop_duplicates_urls).
  split.
  - intros H1 H2. split; intros r Hr <-.
    + apply (prepared_tag_both E us yus uk US_ONLY us_df r); [done..|by apply Uk].
    + apply (prepared_tag_both E uk yuk us UK_ONLY uk_df r); [done..|by apply Us].
  - split; intros (r & Hr & <- & Ht).
    + apply (prepared_tag_both E us yus uk US_ONLY us_df r) in Ht; [|done..].
      apply Uk, elem_of_urls in Ht as (r' & Hr' & Heq).
      exists r'. split; [done|]. split; [done|].
      apply (prepared_tag_both E uk yuk us UK_ONLY uk_df r'); [done..|].
      rewrite Heq. apply Us, elem_of_urls. eauto.
    + apply (prepared_tag_both E uk yuk us UK_ONLY uk_df r) in Ht; [|done..].
      apply Us, elem_of_urls in Ht as (r' & Hr' & Heq).
      exists r'. split; [done|]. split; [done|].
      apply (prepared_tag_both E us yus uk US_ONLY us_df r'); [done..|].
      rewrite Heq. apply Uk, elem_of_urls. eauto.
Qed.

(** C6.  When the other market's data is entirely absent ([None] or an
    empty list), the block that prepares a market's frame returns, given
    that the [daily_processor] functions it calls do; given that
    [calculate_metrics] and [calculate_status] keep the URL column, the
    frame it returns has the URLs of the market's deduplicated data, in
    order, so every record of the market has a row in it; and every row
    of the frame carries the single-market tag, none the tag BOTH. *)
Theorem absent_market_tags_single (E : Env) (data yesterday other : Records)
    (single : MarketTag) :
  helpers_return E →
  keeps_urls (calculate_metrics E) →
  keeps_urls (λ df, calculate_status E df yesterday) →
  truthy other = false →
  ∃ df, prepare_frame E data yesterday other single = Ok df ∧
        urls df = urls (drop_duplicates (frame_or_empty data)) ∧
        (∀ raw, raw ∈ list_of data →
           ∃ r, r ∈ df ∧ webVideoUrl r = webVideoUrl raw) ∧
        (∀ r, r ∈ df → market_tag r = Some (VMarket single)) ∧
        (single ≠ BOTH → ∀ r, r ∈ df → market_tag r ≠ Some (VMarket BOTH)).
Proof.
  intros Hh Hcm Hcs Ho.
  destruct (prepare_frame_returns E data yesterday other single
              (hr_metrics E Hh) (λ df, hr_status E Hh df yesterday)
              (hr_author E Hh) (hr_ai E Hh) (hr_build_now E Hh)) as [df Hp].
  pose proof (prepare_frame_urls E _ _ _ _ _ Hcm Hcs Hp) as Hu.
  assert (∀ r, r ∈ df → market_tag r = Some (VMarket single)) as Htag.
  { intros r Hr.
    rewrite (prepare_frame_market E _ _ _ _ _ _ Hp Hr). unfold tagger.
    destruct (decide _) as [Hin|]; [|done].
    unfold urls_or_empty in Hin. rewrite Ho in Hin. set_solver. }
  exists df. split; [done|]. split; [done|]. split; [|split; [done|]].
  - intros raw Hraw. apply elem_of_urls.
    rewrite Hu, drop_duplicates_urls, frame_or_empty_eq.
    unfold DataFrame_of. rewrite urls_frame. apply elem_of_urls. eauto.
  - intros Hs r Hr. rewrite (Htag r Hr). congruence.
Qed.

(** ** The combined frame of the briefing *)

(** C9, as amended.  For a URL present in both markets' raw data, the
    combined frame of the briefing (the non-empty market frames
    concatenated US first, then deduplicated) holds exactly one row with
    that URL, built from the US market's first record for it.  Every
    field of that record is in the row: a value that is not an integer
    as it is, an integer as it is or converted to float64, and as it is
    whenever every record of both markets holds an integer in that
    column.  A column the record has no key for is NaN in the row when
    some record of either market has the key, and no column of the frame
    otherwise. *)
Theorem combined_frame_takes_us_record (us uk : Records) (u : string) :
  u ∈ urls (list_of us) →
  u ∈ urls (list_of uk) →
  ∃ df raw row,
    concat_markets us uk = Ok df ∧
    first_with_url u (list_of us) = Some raw ∧
    rows_with_url u (drop_duplicates df) = [row] ∧
    webVideoUrl row = u ∧
    (∀ c v, cols raw !! c = Some v →
       match v with
       | VInt n => cols row !! c = Some (VInt n) ∨
                   cols row !! c = Some (VFloat (float64_value n))
       | _ => cols row !! c = Some v
       end) ∧
    (∀ c n, cols raw !! c = Some (VInt n) →
       (∀ r, r ∈ list_of us ++ list_of uk → ∃ m, cols r !! c = Some (VInt m)) →
       cols row !! c = Some (VInt n)) ∧
    (∀ c, cols raw !! c = None →
       cols row !! c =
         if decide (c ∈ columns_of (list_of us ++ list_of uk))
         then Some VNaN else None).
Proof.
  intros Hus Huk.
  destruct (first_with_url_is_Some u _ Hus) as [raw Hraw].
  pose proof Hus as HusF. pose proof Huk as HukF.
  rewrite <- urls_frame in HusF, HukF.
  exists (frame (frame (list_of us) ++ frame (list_of uk))), raw,
    (fill (frame (list_of us) ++ frame (list_of uk)) (fill (list_of us) raw)).
  split.
  { unfold concat_markets. rewrite !frame_or_empty_eq. unfold DataFrame_of.
    destruct (frame (list_of us)) as [|a l]; [inversion HusF|].
    destruct (frame (list_of uk)) as [|b l']; [inversion HukF|].
    rewrite filter_cons_True by (cbn; lia).
    rewrite filter_cons_True by (cbn; lia).
    rewrite filter_nil. cbn [concat List.concat]. by rewrite app_nil_r. }
  split; [done|].
  split.
  { rewrite drop_duplicates_rows. unfold frame at 1.
    rewrite first_with_url_fmap by done.
    rewrite first_with_url_app_l by done.
    unfold frame at 3. rewrite first_with_url_fmap by done. by rewrite Hraw. }
  split.
  { by apply first_with_url_Some in Hraw as [_ <-]. }
  split; [|split].
  - intros c v Hv. rewrite !fill_lookup, Hv.
    destruct (float_column _), (float_column _), v; cbn; auto.
  - intros c n Hn Hint. rewrite !fill_lookup, Hn.
    rewrite (float_column_ints (list_of us)) by (intros r Hr; apply Hint, elem_of_app; by left).
    rewrite float_column_ints; [done|].
    intros r' [Hr'|Hr']%elem_of_app;
      apply list_elem_of_fmap in Hr' as (r & -> & Hr);
      rewrite fill_lookup;
      (destruct (Hint r) as [m Hm]; [apply elem_of_app; by auto|]);
      rewrite Hm, float_column_ints; eauto;
      intros r0 Hr0; apply Hint, elem_of_app; by auto.
  - intros c Hc. rewrite !fill_lookup, Hc.
    destruct (decide (c ∈ columns_of (list_of us))) as [Hin|Hout].
    + rewrite decide_True by (apply columns_of_app; by left).
      by destruct (float_column _).
    + destruct (decide (c ∈ columns_of (frame _ ++ frame _))) as [Hin'|Hout'];
        rewrite columns_of_app, !columns_of_frame, <- columns_of_app in *;
        [by rewrite decide_True | by rewrite decide_False].
Qed.

(** ** Fatal and completed runs *)


(** C5, at its failing input.  When [v35_enhancements] cannot be
    imported, the script stops at the import at the top of the file with
    that exception: [main] never starts, so nothing is saved to the cache
    and nothing is sent to the Notifier. *)
Theorem script_stops_when_module_unavailable (E : Env) (e : exn) :
  import_v35_enhancements E = Raise e →
  script E = (Raise e, []).
Proof. intros H. unfold script. prog_simpl. by rewrite H. Qed.

(** The guard inside [run_v35_enhancements] would contain the same
    failure, were it ever reached with the module missing. *)
Lemma run_v35_enhancements_import_guard (E : Env) us uk yus yuk od cd msg :
  import_v35_enhancements E = Raise (ImportError msg) →
  run_v35_enhancements E us uk yus yuk od cd = (Ok ∅, []).
Proof. intros H. rewrite run_v35_enhancements_spec. by rewrite H. Qed.

(** An exception of [integrate_with_daily_processor] is caught at the
    call: the stage returns the empty dict. *)
Lemma run_v35_enhancements_contains_failure (E : Env) us uk yus yuk od cd us_df uk_df e :
  import_v35_enhancements E = Ok tt →
  prepare_frame E us yus uk US_ONLY = Ok us_df →
  prepare_frame E uk yuk us UK_ONLY = Ok uk_df →
  integrate_with_daily_processor E us_df uk_df
    (frame_or_None yus) (frame_or_None yuk) od = Raise e →
  is_Exception e = true →
  run_v35_enhancements E us uk yus yuk od cd =
    (Ok ∅, [IntegrateWithDailyProcessor us_df uk_df
              (frame_or_None yus) (frame_or_None yuk) od]).
Proof.
  intros Hi Hus Huk Hg He. rewrite run_v35_enhancements_spec.
  rewrite Hi, Hus, Huk. cbn zeta. by rewrite Hg, He.
Qed.

(** An exception raised while the stage prepares its frames is not
    caught: it leaves [run_v35_enhancements], and [main] with it. *)
Lemma run_v35_enhancements_unguarded_block (E : Env) us uk yus yuk od cd e :
  import_v35_enhancements E = Ok tt →
  prepare_frame E us yus uk US_ONLY = Raise e →
  run_v35_enhancements E us uk yus yuk od cd = (Raise e, []).
Proof.
  intros Hi Hus. rewrite run_v35_enhancements_spec. by rewrite Hi, Hus.
Qed.

(** ** The stats mapping *)

Lemma truthy_dict_empty {V} (d : gmap string V) : truthy_dict d = false ↔ d = ∅.
Proof.
  unfold truthy_dict. rewrite negb_false_iff, bool_decide_eq_true.
  apply map_size_empty_iff.
Qed.

(** C8.  The stats mapping passed to the Notifier is the mapping returned
    by standard processing, changed by the enhancement stage's result in
    one way only: for a non-empty file dict the key ['enhanced_files'] is
    set to the dict's length, every other key keeping its value or its
    absence; for an empty dict the mapping is the one standard processing
    returned. *)
Theorem stats_gain_only_enhanced_files (E : Env) (us uk : Records) (um km : Music)
    (yus yuk : Records) (stats stats' : Stats) (files : Files) :
  let od := environ_get E "OUTPUT_DIR" "output" in
  let cd := environ_get E "CACHE_DIR" "data" in
  fetch_all_data E = Ok (us, uk, um, km) →
  load_yesterday_cache E cd = Ok (yus, yuk) →
  process_data E us uk um km yus yuk od cd = Ok stats →
  fst (run_v35_enhancements E us uk yus yuk od cd) = Ok files →
  SendDiscordNotification stats' ∈ snd (main E) →
  (files = ∅ → stats' = stats) ∧
  (files ≠ ∅ →
   stats' = <["enhanced_files" := Z.of_nat (size files)]> stats) ∧
  (∀ k, k ≠ "enhanced_files" → stats' !! k = stats !! k).
Proof.
  intros od cd Hfetch Hload Hpd Henh
    (us0 & uk0 & um0 & km0 & yus0 & yuk0 & stats0 & files0 &
     Hfetch0 & Hload0 & Hpd0 & Henh0 & ->)%send_discord_notification_call.
  rewrite Hfetch in Hfetch0. injection Hfetch0 as <- <- <- <-.
  fold cd in Hload0. rewrite Hload in Hload0. injection Hload0 as <- <-.
  fold od cd in Hpd0, Henh0.
  rewrite Hpd in Hpd0. injection Hpd0 as <-.
  rewrite Henh in Henh0. injection Henh0 as <-.
  unfold add_enhancement_info.
  destruct (truthy_dict files) eqn:Ht.
  - assert (files ≠ ∅) as Hne.
    { intros Heq. apply truthy_dict_empty in Heq. congruence. }
    split; [done|]. split; [done|].
    intros k Hk. by rewrite lookup_insert_ne.
  - apply truthy_dict_empty in Ht. by repeat split.
Qed.

(** ** The cache snapshots *)


(** ** The status classifier of [daily_processor] *)

Module DailyProcessor.

(** Modelled from the spec: the classification policy of section 4.3,
    whose thresholds the spec leaves configurable: the counter whose
    growth is measured and the growth thresholds, ordered most severe
    first. *)
Record Policy := {
  counter : string;
  levels : list (Z * Status)
}.

(** Modelled from the spec: the metric delta of section 4.3, the growth
    of the counter between yesterday's and today's record; a counter that
    is missing or not a number on either side counts as no growth. *)
Definition growth (p : Policy) (today yesterday : Row) : Z :=
  match cols today !! counter p, cols yesterday !! counter p with
  | Some (VInt t), Some (VInt y) => t - y
  | _, _ => 0
  end.

(** Modelled from the spec: the threshold comparison of section 4.3.
    The first threshold the growth reaches decides; below all of them the
    post is stable. *)
Fixpoint classify (levels : list (Z * Status)) (delta : Z) : Status :=
  match levels with
  | [] => STABLE
  | (bound, s) :: rest => if bound <=? delta then s else classify rest delta
  end.

(** Modelled from the spec: the status of one record (section 4.3):
    NEW without a counterpart in yesterday's cache, else by its growth. *)
Definition status_of (p : Policy) (today : Row) (yesterday : Records) : Status :=
  match first_with_url (webVideoUrl today) (list_of yesterday) with
  | None => NEW
  | Some y => classify (levels p) (growth p today y)
  end.

(** Modelled from the spec: [calculate_status] of [daily_processor.py],
    which is not among the sources.  Section 4.3: a record whose URL is
    absent from yesterday's cache (or whose cache is absent altogether)
    is NEW; otherwise the metric delta is compared with the configured
    thresholds, most severe first; every record gets exactly one
    status, attached to it in the ['status'] column; yesterday's cache is
    left as it is. *)
Definition calculate_status (p : Policy) (df : DataFrame) (yesterday : Records)
  : DataFrame :=
  assign "status" (λ r, VStatus (status_of p r yesterday)) df.

Lemma status_of_absent p today yesterday :
  webVideoUrl today ∉ urls (list_of yesterday) →
  status_of p today yesterday = NEW.
Proof.
  intros Habs. unfold status_of.
  destruct (first_with_url _ _) as [y|] eqn:Hy; [|done].
  apply first_with_url_Some in Hy as [Hin Heq].
  exfalso. apply Habs, elem_of_urls. eauto.
Qed.

Lemma calculate_status_urls p df yesterday :
  urls (calculate_status p df yesterday) = urls df.
Proof. apply urls_assign. Qed.

End DailyProcessor.

(** C2.  Every record whose URL is absent from yesterday's cache gets the
    status NEW, whatever its counters hold and whatever the thresholds
    are; with no cache at all ([None] or an empty one) that is every
    record. *)
Theorem absent_from_cache_is_NEW (p : DailyProcessor.Policy) (df : DataFrame)
    (yesterday : Records) (r : Row) :
  r ∈ DailyProcessor.calculate_status p df yesterday →
  (webVideoUrl r ∉ urls (list_of yesterday) ∨ truthy yesterday = false) →
  cols r !! "status" = Some (VStatus NEW).
Proof.
  intros (r0 & Hr0 & ->)%elem_of_assign Habs.
  rewrite set_col_lookup. rewrite set_col_url in Habs. do 2 f_equal.
  apply DailyProcessor.status_of_absent.
  destruct Habs as [Habs|Hnone]; [done|].
  destruct yesterday as [[|y l]|]; cbn in *; try discriminate; set_solver.
Qed.

(** ** The streak cache of [v35_enhancements] *)

Module Streaks.

(** Modelled from the spec: the StreakEntry of section 3, the state kept
    per URL: consecutive-day count, last-seen date (a day number) and
    last velocity. *)
Record StreakEntry := {
  day_count : nat;
  last_seen : Z;
  last_velocity : Z
}.

Abbreviation StreakCache := (gmap string StreakEntry).

(** Modelled from the spec: what the engine of section 4.4 reads off one
    classified record of today: its URL, whether its status indicates
    acceleration, and its velocity. *)
Record Observation := {
  obs_url : string;
  accelerating : bool;
  velocity : Z
}.

(** Modelled from the spec: the day-count of a URL; a URL without an
    entry has a streak of 0. *)
Definition streak_days (cache : StreakCache) (u : string) : nat :=
  from_option day_count 0%nat (cache !! u).

(** Modelled from the spec: step 3 of section 4.4, the day-count set to
    zero, the entry kept. *)
Definition reset (e : StreakEntry) : StreakEntry :=
  {| day_count := 0; last_seen := last_seen e; last_velocity := last_velocity e |}.

(** Modelled from the spec: step 4 of section 4.4.  Entries last seen
    longer ago than the retention window are purged, before today's
    records are processed. *)
Definition purge (retention today : Z) (cache : StreakCache) : StreakCache :=
  filter (λ p, today - last_seen p.2 ≤ retention) cache.

(** Modelled from the spec: steps 2 and 3 of section 4.4, for one
    record. *)
Definition observe (today : Z) (cache : StreakCache) (o : Observation) : StreakCache :=
  if accelerating o
  then <[obs_url o := {| day_count := S (streak_days cache (obs_url o));
                         last_seen := today;
                         last_velocity := velocity o |}]> cache
  else alter reset (obs_url o) cache.

(** Modelled from the spec: the lifecycle of section 3, where a day
    without the post appearing resets its streak as well. *)
Definition reset_unseen (seen : gset string) (cache : StreakCache) : StreakCache :=
  map_imap (λ u e, Some (if decide (u ∈ seen) then e else reset e)) cache.

(** Modelled from the spec: the streak update inside
    [generate_daily_briefing] of [v35_enhancements.py], which is not
    among the sources ([main.py] only passes it the cache path).
    Section 4.4: purge stale entries first; then, per record, an
    accelerating one increments its entry's day-count (creating the
    entry if absent) and updates last-seen and last velocity, any other
    resets the day-count to zero without deleting the entry; section 3:
    a day without the post appearing resets the streak as well. *)
Definition run (retention today : Z) (cache : StreakCache) (obs : list Observation)
  : StreakCache :=
  reset_unseen (list_to_set (obs_url <$> obs))
    (foldl (observe today) (purge retention today cache) obs).

(** Modelled from the spec: a sequence of runs, each with its date and
    its classified records, applied to the cache one after the other. *)
Abbreviation Run := (Z * list Observation)%type.

Definition runs (retention : Z) (cache : StreakCache) (rs : list Run) : StreakCache :=
  foldl (λ c r, run retention r.1 c r.2) cache rs.

(** The URL is among the run's records, once, and accelerates. *)
Definition accelerates (u : string) (r : Run) : Prop :=
  NoDup (obs_url <$> r.2) ∧
  ∃ v, {| obs_url := u; accelerating := true; velocity := v |} ∈ r.2.

(** The URL does not accelerate on the run: no record of the run shows
    it accelerating, whether it is among the records or missing from
    them. *)
Definition quiet (u : string) (r : Run) : Prop :=
  ∀ o, o ∈ r.2 → obs_url o = u → accelerating o = false.





Section Engine.

Context (retention : Z) (u : string).

Implicit Types (cache : StreakCache) (obs : list Observation) (today : Z).







Lemma reset_idemp (e : StreakEntry) : reset (reset e) = reset e.
Proof. reflexivity. Qed.








End Engine.

End Streaks.


(** ** A concrete run

    Two small markets that share a post, a US feed that repeats one, and
    collaborators simple enough to run: the enhancement and briefing
    collaborators of [demo_env] fail, those of [enhanced_env] deliver
    files, and [missing_module_env] has no [v35_enhancements] to import. *)

Module Demo.

Definition post (url : string) (plays : Z) : Row :=
  mkRow url {[ "playCount" := VInt plays ]}.

Definition us_raw : list Row :=
  [post "https://t/a" 100; post "https://t/a" 999; post "https://t/b" 5].

Definition uk_raw : list Row :=
  [post "https://t/b" 7; post "https://t/c" 1].

(** A US record with a key the UK record of the same post lacks, holding
    a counter past [2 ^ 53]. *)
Definition us_wide : list Row :=
  [mkRow "https://t/a"
     {[ "playCount" := VInt 100; "collectCount" := VInt 9007199254740993 ]}].

Definition uk_narrow : list Row := [post "https://t/a" 120].

Definition policy : DailyProcessor.Policy :=
  {| DailyProcessor.counter := "playCount";
     DailyProcessor.levels := [(1000, URGENT); (500, HIGH); (100, WATCH)] |}.

Definition standard_stats : Stats := {[ "urgent" := 1; "high" := 2 ]}.

Definition enhanced : Files :=
  {[ "velocity" := "output/velocity.xlsx"; "competitors" := "output/competitors.xlsx" ]}.

Definition demo_env : Env := {|
  environ := ∅;
  today := "2025-01-01";
  makedirs := λ _, Ok tt;
  import_v35_enhancements := Ok tt;
  fetch_all_data := Ok (Some us_raw, Some uk_raw, None, None);
  load_yesterday_cache := λ _, Ok (None, None);
  process_data := λ _ _ _ _ _ _ _ _, Ok standard_stats;
  save_today_cache := λ _ _ _, Ok tt;
  calculate_metrics := λ df, Ok df;
  calculate_status := λ df y, Ok (DailyProcessor.calculate_status policy df y);
  get_author_name := λ _, Ok (VStr "someone");
  detect_ai := λ _, Ok (VStr "none");
  calculate_build_now := λ _, Ok (VStr "no");
  integrate_with_daily_processor := λ _ _ _ _ _, Raise (Exception "velocity engine failed");
  generate_daily_briefing := λ _ _ _ _, Raise (Exception "briefing failed");
  send_discord_notification := λ _, Ok tt;
  append_summary := λ _ _, Ok tt
|}.

Definition enhanced_env : Env := {|
  environ := environ demo_env;
  today := today demo_env;
  makedirs := makedirs demo_env;
  import_v35_enhancements := Ok tt;
  fetch_all_data := fetch_all_data demo_env;
  load_yesterday_cache := load_yesterday_cache demo_env;
  process_data := process_data demo_env;
  save_today_cache := save_today_cache demo_env;
  calculate_metrics := calculate_metrics demo_env;
  calculate_status := calculate_status demo_env;
  get_author_name := get_author_name demo_env;
  detect_ai := detect_ai demo_env;
  calculate_build_now := calculate_build_now demo_env;
  integrate_with_daily_processor := λ _ _ _ _ _, Ok enhanced;
  generate_daily_briefing := λ _ _ _ _, Ok "briefing";
  send_discord_notification := send_discord_notification demo_env;
  append_summary := append_summary demo_env
|}.

Definition missing_module_env : Env := {|
  environ := environ demo_env;
  today := today demo_env;
  makedirs := makedirs demo_env;
  import_v35_enhancements := Raise (ImportError "No module named v35_enhancements");
  fetch_all_data := fetch_all_data demo_env;
  load_yesterday_cache := load_yesterday_cache demo_env;
  process_data := process_data demo_env;
  save_today_cache := save_today_cache demo_env;
  calculate_metrics := calculate_metrics demo_env;
  calculate_status := calculate_status demo_env;
  get_author_name := get_author_name demo_env;
  detect_ai := detect_ai demo_env;
  calculate_build_now := calculate_build_now demo_env;
  integrate_with_daily_processor := integrate_with_daily_processor demo_env;
  generate_daily_briefing := generate_daily_briefing demo_env;
  send_discord_notification := send_discord_notification demo_env;
  append_summary := append_summary demo_env
|}.


Lemma demo_helpers_return : helpers_return demo_env.
Proof. constructor; intros; eexists; reflexivity. Defined.


Lemma demo_keeps_urls_metrics : keeps_urls (calculate_metrics demo_env).
Proof. intros df df' [= <-]. reflexivity. Defined.

Lemma demo_keeps_urls_status y :
  keeps_urls (λ df, calculate_status demo_env df y).
Proof. intros df df' [= <-]. apply DailyProcessor.calculate_status_urls. Defined.

(** The duplicate of the first US post is dropped, and the survivor is
    the first occurrence, with 100 plays. *)
Example drop_duplicates_us_raw :
  drop_duplicates us_raw = [post "https://t/a" 100; post "https://t/b" 5].
Proof. reflexivity. Qed.

(** A raw post after the block of lines 46-62, as [demo_env] fills the
    columns in. *)
Definition prepared (r : Row) (ai : Cell) (tag : MarketTag) : Row :=
  mkRow (webVideoUrl r)
    (<["acceleration_status" := VStatus NEW]>
       (<["Market" := VMarket tag]>
          (<["BUILD_NOW" := VStr "no"]>
             (<["status" := VStatus NEW]>
                (<["AI_CATEGORY" := ai]>
                   (<["author" := VStr "someone"]> (cols r))))))).

Definition us_frame : DataFrame :=
  [prepared (post "https://t/a" 100) (VStr "none") US_ONLY;
   prepared (post "https://t/b" 5) VNaN BOTH].

Definition uk_frame : DataFrame :=
  [prepared (post "https://t/b" 7) (VStr "none") BOTH;
   prepared (post "https://t/c" 1) VNaN UK_ONLY].

Example prepare_us_frame :
  prepare_frame demo_env (Some us_raw) None (Some uk_raw) US_ONLY = Ok us_frame.
Proof. vm_compute. reflexivity. Qed.

Example prepare_uk_frame :
  prepare_frame demo_env (Some uk_raw) None (Some us_raw) UK_ONLY = Ok uk_frame.
Proof. vm_compute. reflexivity. Qed.

Example demo_run_outcome : fst (main demo_env) = Ok tt.
Proof. vm_compute. reflexivity. Qed.

Example demo_run_calls : length (snd (main demo_env)) = 5%nat.
Proof. vm_compute. reflexivity. Qed.

(** The failure of the enhancement collaborator is contained: the
    stage returns the empty dict and the Notifier gets the stats of
    standard processing. *)
Example demo_enhancement_contained :
  fst (run_v35_enhancements demo_env (Some us_raw) (Some uk_raw) None None
         "output" "data") = Ok ∅ ∧
  SendDiscordNotification standard_stats ∈ snd (main demo_env).
Proof. split; [vm_compute; reflexivity | vm_compute; do 4 right; left]. Qed.

(** The same data with the module missing: [main] alone would finish
    the run, the script does not reach it. *)
Example missing_module_main_alone : fst (main missing_module_env) = Ok tt.
Proof. vm_compute. reflexivity. Qed.

Example missing_module_script :
  script missing_module_env =
    (Raise (ImportError "No module named v35_enhancements"), []).
Proof. reflexivity. Qed.

(** No data from either market: [sys.exit(1)] before any call. *)
Definition no_data_env : Env := {|
  environ := environ demo_env;
  today := today demo_env;
  makedirs := makedirs demo_env;
  import_v35_enhancements := Ok tt;
  fetch_all_data := Ok (Some [], None, None, None);
  load_yesterday_cache := load_yesterday_cache demo_env;
  process_data := process_data demo_env;
  save_today_cache := save_today_cache demo_env;
  calculate_metrics := calculate_metrics demo_env;
  calculate_status := calculate_status demo_env;
  get_author_name := get_author_name demo_env;
  detect_ai := detect_ai demo_env;
  calculate_build_now := calculate_build_now demo_env;
  integrate_with_daily_processor := integrate_with_daily_processor enhanced_env;
  generate_daily_briefing := generate_daily_briefing enhanced_env;
  send_discord_notification := send_discord_notification demo_env;
  append_summary := append_summary demo_env
|}.

Example no_data_run : main no_data_env = (Raise (SystemExit 1), []).
Proof. reflexivity. Qed.

End Demo.

(** ** Further concrete runs *)

Module Faults.

Import Demo.

(** [calculate_status] cannot read yesterday's cache and raises. *)
Definition failing_status_env : Env := {|
  environ := environ demo_env;
  today := today demo_env;
  makedirs := makedirs demo_env;
  import_v35_enhancements := Ok tt;
  fetch_all_data := fetch_all_data demo_env;
  load_yesterday_cache := load_yesterday_cache demo_env;
  process_data := process_data demo_env;
  save_today_cache := save_today_cache demo_env;
  calculate_metrics := calculate_metrics demo_env;
  calculate_status := λ _ _, Raise (Exception "unreadable cache");
  get_author_name := get_author_name demo_env;
  detect_ai := detect_ai demo_env;
  calculate_build_now := calculate_build_now demo_env;
  integrate_with_daily_processor := integrate_with_daily_processor enhanced_env;
  generate_daily_briefing := generate_daily_briefing enhanced_env;
  send_discord_notification := send_discord_notification demo_env;
  append_summary := append_summary demo_env
|}.

(** The US fetch came back empty. *)
Definition uk_only_env : Env := {|
  environ := environ demo_env;
  today := today demo_env;
  makedirs := makedirs demo_env;
  import_v35_enhancements := Ok tt;
  fetch_all_data := Ok (None, Some uk_raw, None, None);
  load_yesterday_cache := load_yesterday_cache demo_env;
  process_data := process_data demo_env;
  save_today_cache := save_today_cache demo_env;
  calculate_metrics := calculate_metrics demo_env;
  calculate_status := calculate_status demo_env;
  get_author_name := get_author_name demo_env;
  detect_ai := detect_ai demo_env;
  calculate_build_now := calculate_build_now demo_env;
  integrate_with_daily_processor := integrate_with_daily_processor enhanced_env;
  generate_daily_briefing := generate_daily_briefing enhanced_env;
  send_discord_notification := send_discord_notification demo_env;
  append_summary := append_summary demo_env
|}.

Example failing_status_run :
  main failing_status_env =
    (Raise (Exception "unreadable cache"),
     [ProcessData (Some us_raw) (Some uk_raw) None None None None "output" "data"]).
Proof. vm_compute. reflexivity. Qed.

Example uk_only_run_outcome : fst (main uk_only_env) = Ok tt.
Proof. vm_compute. reflexivity. Qed.

(** [OUTPUT_DIR] is set to the empty string, for which [os.makedirs]
    raises [FileNotFoundError]. *)
Definition no_output_dir_env : Env := {|
  environ := {[ "OUTPUT_DIR" := "" ]};
  today := today demo_env;
  makedirs := λ d, if bool_decide (d = "")
                   then Raise (Exception "FileNotFoundError: No such file or directory")
                   else Ok tt;
  import_v35_enhancements := Ok tt;
  fetch_all_data := fetch_all_data demo_env;
  load_yesterday_cache := load_yesterday_cache demo_env;
  process_data := process_data demo_env;
  save_today_cache := save_today_cache demo_env;
  calculate_metrics := calculate_metrics demo_env;
  calculate_status := calculate_status demo_env;
  get_author_name := get_author_name demo_env;
  detect_ai := detect_ai demo_env;
  calculate_build_now := calculate_build_now demo_env;
  integrate_with_daily_processor := integrate_with_daily_processor enhanced_env;
  generate_daily_briefing := generate_daily_briefing enhanced_env;
  send_discord_notification := send_discord_notification demo_env;
  append_summary := append_summary demo_env
|}.

(** The cache file cannot be written. *)
Definition full_disk_env : Env := {|
  environ := environ demo_env;
  today := today demo_env;
  makedirs := makedirs demo_env;
  import_v35_enhancements := Ok tt;
  fetch_all_data := fetch_all_data demo_env;
  load_yesterday_cache := load_yesterday_cache demo_env;
  process_data := process_data demo_env;
  save_today_cache := λ _ _ _, Raise (Exception "OSError: No space left on device");
  calculate_metrics := calculate_metrics demo_env;
  calculate_status := calculate_status demo_env;
  get_author_name := get_author_name demo_env;
  detect_ai := detect_ai demo_env;
  calculate_build_now := calculate_build_now demo_env;
  integrate_with_daily_processor := integrate_with_daily_processor enhanced_env;
  generate_daily_briefing := generate_daily_briefing enhanced_env;
  send_discord_notification := send_discord_notification demo_env;
  append_summary := append_summary demo_env
|}.

End Faults.

(** ** The theorems at the concrete run *)

Section Witnesses.

Import Demo Faults.

Let od := environ_get demo_env "OUTPUT_DIR" "output".
Let cd := environ_get demo_env "CACHE_DIR" "data".

Lemma absent_from_cache_is_NEW_witness :
  cols (set_col "status"
          (VStatus (DailyProcessor.status_of policy (post "https://t/b" 5)
                      (Some [post "https://t/a" 90])))
          (post "https://t/b" 5)) !! "status" = Some (VStatus NEW).
Proof.
  apply (absent_from_cache_is_NEW policy us_raw (Some [post "https://t/a" 90])).
  - apply elem_of_assign. exists (post "https://t/b" 5).
    split; [|reflexivity]. do 2 right. left.
  - left. cbn. rewrite list_elem_of_singleton. discriminate.
Defined.

Lemma cross_market_tagging_symmetric_witness :
  (∀ r, r ∈ us_frame → webVideoUrl r = "https://t/b" →
        market_tag r = Some (VMarket BOTH)) ∧
  (∀ r, r ∈ uk_frame → webVideoUrl r = "https://t/b" →
        market_tag r = Some (VMarket BOTH)) ∧
  ((∃ r, r ∈ us_frame ∧ webVideoUrl r = "https://t/c" ∧
         market_tag r = Some (VMarket BOTH)) ↔
   (∃ r, r ∈ uk_frame ∧ webVideoUrl r = "https://t/c" ∧
         market_tag r = Some (VMarket BOTH))).
Proof.
  assert (IntegrateWithDailyProcessor us_frame uk_frame None None od
            ∈ snd (run_v35_enhancements demo_env (Some us_raw) (Some uk_raw)
                     None None od cd)) as Hcall.
  { rewrite run_v35_enhancements_spec. cbn [import_v35_enhancements demo_env].
    rewrite prepare_us_frame, prepare_uk_frame. left. }
  pose proof (cross_market_tagging_symmetric demo_env (Some us_raw) (Some uk_raw)
                None None od cd us_frame uk_frame None None od
                demo_keeps_urls_metrics demo_keeps_urls_status Hcall) as Hsym.
  destruct (Hsym "https://t/b") as [Hboth _].
  destruct (Hsym "https://t/c") as [_ Hiff].
  destruct Hboth as [Hus Huk].
  - unfold us_frame. rewrite !urls_cons. right. left.
  - unfold uk_frame. rewrite !urls_cons. left.
  - exact (conj Hus (conj Huk Hiff)).
Defined.


(** The claim as it stands fails on runs that have data from both
    markets: with [OUTPUT_DIR] set to the empty string the run ends in
    [FileNotFoundError] at the first [os.makedirs], before any call; and
    with a cache that cannot be written it ends in the cache writer's
    exception, after standard processing, the enhancement stage and the
    briefing, and without the Notifier being called. *)
Lemma main_fatal_with_data :
  ¬ no_data (Some us_raw) (Some uk_raw) ∧
  fetch_all_data no_output_dir_env = Ok (Some us_raw, Some uk_raw, None, None) ∧
  main no_output_dir_env =
    (Raise (Exception "FileNotFoundError: No such file or directory"), []) ∧
  fetch_all_data full_disk_env = Ok (Some us_raw, Some uk_raw, None, None) ∧
  fst (main full_disk_env) = Raise (Exception "OSError: No space left on device") ∧
  Forall (λ ev, match ev with SendDiscordNotification _ => False | _ => True end)
    (snd (main full_disk_env)).
Proof.
  split; [by intros [H _]|].
  split; [reflexivity|].
  split; [reflexivity|].
  split; [reflexivity|].
  split; [vm_compute; reflexivity|].
  vm_compute. repeat constructor.
Defined.

Lemma script_stops_when_module_unavailable_witness :
  script missing_module_env =
    (Raise (ImportError "No module named v35_enhancements"), []).
Proof.
  apply (script_stops_when_module_unavailable missing_module_env).
  reflexivity.
Defined.

Lemma absent_market_tags_single_witness :
  ∃ df, prepare_frame demo_env (Some us_raw) None None US_ONLY = Ok df ∧
        urls df = urls (drop_duplicates (frame_or_empty (Some us_raw))) ∧
        (∀ raw, raw ∈ us_raw → ∃ r, r ∈ df ∧ webVideoUrl r = webVideoUrl raw) ∧
        (∀ r, r ∈ df → market_tag r = Some (VMarket US_ONLY)) ∧
        (US_ONLY ≠ BOTH → ∀ r, r ∈ df → market_tag r ≠ Some (VMarket BOTH)).
Proof.
  apply (absent_market_tags_single demo_env (Some us_raw) None None US_ONLY
           demo_helpers_return demo_keeps_urls_metrics (demo_keeps_urls_status None)).
  reflexivity.
Defined.

Definition streak_url : string := "https://t/a".

Definition accelerating_day (day velocity : Z) : Streaks.Run :=
  (day, [ {| Streaks.obs_url := streak_url; Streaks.accelerating := true;
             Streaks.velocity := velocity |};
          {| Streaks.obs_url := "https://t/b"; Streaks.accelerating := false;
             Streaks.velocity := 0 |} ]).


(** A run whose records do not hold the URL at all. *)
Definition absent_day (day : Z) : Streaks.Run :=
  (day, [ {| Streaks.obs_url := "https://t/b"; Streaks.accelerating := true;
             Streaks.velocity := 3 |} ]).

Lemma accelerating_day_accelerates day v :
  Streaks.accelerates streak_url (accelerating_day day v).
Proof.
  split.
  - cbn. apply NoDup_cons. split; [|apply NoDup_singleton].
    rewrite list_elem_of_singleton. discriminate.
  - exists v. left.
Defined.


Lemma absent_day_quiet day : Streaks.quiet streak_url (absent_day day).
Proof. intros o Ho%list_elem_of_singleton Hu. by rewrite Ho in Hu. Defined.


(** The claim as it stands fails across a gap longer than the retention
    window: with a window of 7 days, a URL that accelerates on two
    consecutive runs, on day 1 and on day 10, has day-count 1 after them
    and not 2, its entry having been purged at the start of the second
    run. *)
Lemma streak_restarts_after_retention_gap :
  let rs := [accelerating_day 1 40; accelerating_day 10 55] in
  Forall (Streaks.accelerates streak_url) rs ∧
  length rs = 2%nat ∧
  Streaks.streak_days (Streaks.runs 7 ∅ rs) streak_url = 1%nat.
Proof.
  intros rs. split; [|split; [reflexivity|]].
  - repeat (apply Forall_cons; split; [apply accelerating_day_accelerates|]).
    apply Forall_nil_2.
  - vm_compute. reflexivity.
Defined.

Lemma stats_gain_only_enhanced_files_witness :
  let stats' := add_enhancement_info standard_stats enhanced in
  (enhanced = ∅ → stats' = standard_stats) ∧
  (enhanced ≠ ∅ →
   stats' = <["enhanced_files" := Z.of_nat (size enhanced)]> standard_stats) ∧
  (∀ k, k ≠ "enhanced_files" → stats' !! k = standard_stats !! k).
Proof.
  apply (stats_gain_only_enhanced_files enhanced_env
           (Some us_raw) (Some uk_raw) None None None None
           standard_stats (add_enhancement_info standard_stats enhanced) enhanced).
  - reflexivity.
  - reflexivity.
  - reflexivity.
  - vm_compute. reflexivity.
  - vm_compute. do 5 right. left.
Defined.

Lemma combined_frame_takes_us_record_witness :
  ∃ df raw row,
    concat_markets (Some us_raw) (Some uk_raw) = Ok df ∧
    first_with_url "https://t/b" us_raw = Some raw ∧
    rows_with_url "https://t/b" (drop_duplicates df) = [row] ∧
    webVideoUrl row = "https://t/b" ∧
    (∀ c v, cols raw !! c = Some v →
       match v with
       | VInt n => cols row !! c = Some (VInt n) ∨
                   cols row !! c = Some (VFloat (float64_value n))
       | _ => cols row !! c = Some v
       end) ∧
    (∀ c n, cols raw !! c = Some (VInt n) →
       (∀ r, r ∈ us_raw ++ uk_raw → ∃ m, cols r !! c = Some (VInt m)) →
       cols row !! c = Some (VInt n)) ∧
    (∀ c, cols raw !! c = None →
       cols row !! c =
         if decide (c ∈ columns_of (us_raw ++ uk_raw)) then Some VNaN else None).
Proof.
  apply (combined_frame_takes_us_record (Some us_raw) (Some uk_raw) "https://t/b").
  - cbn. do 2 right. left.
  - cbn. left.
Defined.

(** The claim as it stands fails where [pd.concat] changes a column's
    dtype: the US record of [us_wide] has a counter of [2 ^ 53 + 1] under
    a key the UK record lacks, so the combined column has a missing value
    and is float64, and the one combined row of the URL holds
    [9007199254740992.0], not the US record's value. *)
Lemma combined_frame_rounds_us_counter :
  ∃ df raw row,
    concat_markets (Some us_wide) (Some uk_narrow) = Ok df ∧
    first_with_url "https://t/a" us_wide = Some raw ∧
    rows_with_url "https://t/a" (drop_duplicates df) = [row] ∧
    cols raw !! "collectCount" = Some (VInt 9007199254740993) ∧
    cols row !! "collectCount" = Some (VFloat 9007199254740992) ∧
    cols row !! "collectCount" ≠ cols raw !! "collectCount".
Proof.
  exists (frame (frame us_wide ++ frame uk_narrow)),
    (mkRow "https://t/a"
       {[ "playCount" := VInt 100; "collectCount" := VInt 9007199254740993 ]}),
    (fill (frame us_wide ++ frame uk_narrow)
       (mkRow "https://t/a"
          {[ "playCount" := VInt 100; "collectCount" := VInt 9007199254740993 ]})).
  split; [vm_compute; reflexivity|].
  split; [reflexivity|].
  split; [vm_compute; reflexivity|].
  split; [vm_compute; reflexivity|].
  split; [vm_compute; reflexivity|].
  vm_compute. discriminate.
Defined.


End Witnesses.


(** * Further properties of the orchestration layer *)

(** ** Deduplication: fixed points and concatenation *)

Section DropDuplicatesMore.

Implicit Types (df : DataFrame) (seen : gset string) (u : string) (r : Row).

Lemma drop_duplicates_seen_fixed seen df :
  NoDup (urls df) → (∀ u, u ∈ urls df → u ∉ seen) →
  drop_duplicates_seen seen df = df.
Proof.
  revert seen. induction df as [|r df IH]; intros seen Hnd Hfresh; [done|].
  rewrite urls_cons in Hnd, Hfresh. apply NoDup_cons in Hnd as [Hr Hnd].
  cbn [drop_duplicates_seen].
  rewrite decide_False by (apply Hfresh; left).
  f_equal. apply IH; [done|].
  intros u Hu. assert (u ∉ seen) by (apply Hfresh; by right).
  assert (u ≠ webVideoUrl r) by (intros ->; contradiction).
  set_solver.
Qed.

Lemma drop_duplicates_fixed df : NoDup (urls df) → drop_duplicates df = df.
Proof. intros Hnd. apply drop_duplicates_seen_fixed; [done | set_solver]. Qed.

Lemma drop_duplicates_seen_app seen df1 df2 :
  drop_duplicates_seen seen (df1 ++ df2) =
    drop_duplicates_seen seen df1 ++
    drop_duplicates_seen (seen ∪ url_set df1) df2.
Proof.
  revert seen. induction df1 as [|r df1 IH]; intros seen.
  - cbn. f_equal. unfold url_set. cbn. set_solver.
  - cbn [app drop_duplicates_seen].
    assert (∀ s : gset string, s ∪ url_set (r :: df1) = {[webVideoUrl r]} ∪ s ∪ url_set df1)
      as Hset by (intros s; unfold url_set; rewrite urls_cons; set_solver).
    destruct (decide (webVideoUrl r ∈ seen)) as [Hin|Hout].
    + rewrite IH. f_equal. f_equal. rewrite Hset. set_solver.
    + rewrite IH. cbn [app]. f_equal. f_equal. f_equal. by rewrite Hset.
Qed.

(** Rows already seen elsewhere are the ones a fresh deduplication would
    keep, less those whose URL was seen. *)
Lemma urls_drop_duplicates_seen_union seen seen' df :
  urls (drop_duplicates_seen (seen ∪ seen') df) =
    filter (λ u, u ∉ seen) (urls (drop_duplicates_seen seen' df)).
Proof.
  revert seen'. induction df as [|r df IH]; intros seen'; [done|].
  cbn [drop_duplicates_seen].
  destruct (decide (webVideoUrl r ∈ seen')) as [Hin'|Hout'].
  - rewrite decide_True by set_solver. apply IH.
  - destruct (decide (webVideoUrl r ∈ seen)) as [Hin|Hout].
    + rewrite decide_True by set_solver.
      rewrite urls_cons, filter_cons_False by (intros H; by apply H).
      rewrite <- IH. f_equal. f_equal. set_solver.
    + rewrite decide_False by set_solver.
      rewrite !urls_cons, filter_cons_True by done.
      f_equal. rewrite <- IH. f_equal. f_equal. set_solver.
Qed.

Lemma drop_duplicates_seen_fmap (f : Row → Row) seen df :
  (∀ r, webVideoUrl (f r) = webVideoUrl r) →
  drop_duplicates_seen seen (f <$> df) = f <$> drop_duplicates_seen seen df.
Proof.
  intros Hf. revert seen. induction df as [|r df IH]; intros seen; [done|].
  rewrite fmap_cons. cbn [drop_duplicates_seen]. rewrite Hf.
  destruct (decide (webVideoUrl r ∈ seen)); [apply IH|].
  rewrite fmap_cons. f_equal. apply IH.
Qed.

Lemma elem_of_url_set u df : u ∈ url_set df ↔ u ∈ urls df.
Proof. unfold url_set. apply elem_of_list_to_set. Qed.

End DropDuplicatesMore.

(** X1.  Deduplication is idempotent, and it leaves exactly the frames
    without a repeated URL as they are. *)
Theorem drop_duplicates_idempotent (df : DataFrame) :
  drop_duplicates (drop_duplicates df) = drop_duplicates df ∧
  (drop_duplicates df = df ↔ NoDup (urls df)).
Proof.
  split.
  - apply drop_duplicates_fixed, drop_duplicates_NoDup.
  - split; [|apply drop_duplicates_fixed].
    intros <-. apply drop_duplicates_NoDup.
Qed.

(** What the concatenation returns, when it does. *)
Lemma concat_markets_Ok (us uk : Records) (df : DataFrame) :
  concat_markets us uk = Ok df →
  df = frame (frame_or_empty us ++ frame_or_empty uk).
Proof.
  unfold concat_markets. intros Hc.
  destruct (frame_or_empty us) as [|a l], (frame_or_empty uk) as [|b l'];
    rewrite ?filter_cons_True, ?filter_cons_False, ?filter_nil in Hc
      by (cbn; lia);
    cbn [concat List.concat] in Hc; try discriminate;
    injection Hc as <-; by rewrite ?app_nil_r.
Qed.

(** X2.  Whenever the briefing's concatenation returns, the deduplicated
    combined frame lists the URLs of the deduplicated US frame first, in
    their order, and then those URLs of the deduplicated UK frame that the
    US data does not hold. *)
Theorem combined_frame_urls (us uk : Records) (df : DataFrame) :
  concat_markets us uk = Ok df →
  urls (drop_duplicates df) =
    urls (drop_duplicates (frame_or_empty us)) ++
    filter (λ u, u ∉ urls (frame_or_empty us))
      (urls (drop_duplicates (frame_or_empty uk))).
Proof.
  intros ->%concat_markets_Ok.
  unfold frame at 1, drop_duplicates.
  rewrite drop_duplicates_seen_fmap by done.
  unfold urls at 1. rewrite <- list_fmap_compose.
  change (urls (drop_duplicates_seen ∅ (frame_or_empty us ++ frame_or_empty uk)) =
          urls (drop_duplicates_seen ∅ (frame_or_empty us)) ++
          filter (λ u, u ∉ urls (frame_or_empty us))
            (urls (drop_duplicates_seen ∅ (frame_or_empty uk)))).
  rewrite drop_duplicates_seen_app. unfold urls at 1. rewrite fmap_app.
  f_equal. fold (urls (drop_duplicates_seen (∅ ∪ url_set (frame_or_empty us))
                         (frame_or_empty uk))).
  assert ((∅ : gset string) ∪ url_set (frame_or_empty us)
          = url_set (frame_or_empty us) ∪ ∅) as -> by set_solver.
  rewrite urls_drop_duplicates_seen_union.
  apply list_filter_iff. intros u. by rewrite elem_of_url_set.
Qed.

(** X3.  The concatenation of the briefing raises, as [pd.concat] does on
    an empty list, exactly when neither market has data; otherwise it
    returns a non-empty frame with the US rows' URLs followed by the UK
    rows' URLs. *)
Theorem concat_markets_edge (us uk : Records) :
  (no_data us uk →
   concat_markets us uk = Raise (Exception "No objects to concatenate")) ∧
  (¬ no_data us uk →
   ∃ df, concat_markets us uk = Ok df ∧ df ≠ [] ∧
         urls df = urls (frame_or_empty us) ++ urls (frame_or_empty uk)).
Proof.
  split.
  - intros [Hus Huk]. unfold concat_markets, frame_or_empty.
    by rewrite Hus, Huk.
  - intros Hdata. destruct (concat_markets_returns us uk Hdata) as (df & Hdf & Hne).
    exists df. split; [done|]. split; [done|].
    apply concat_markets_Ok in Hdf as ->.
    rewrite urls_frame. unfold urls. apply fmap_app.
Qed.

(** ** The briefing stage *)

(** X4.  On data from at least one market the briefing never ends
    quietly: when its block ends normally it has called
    [generate_daily_briefing] once, with the streak cache path under the
    cache directory and yesterday's combined cache, and has then appended
    exactly the text that call returned to today's summary report. *)
Theorem briefing_completes_by_appending (E : Env) (us uk yus yuk : Records)
    (od : string) :
  ¬ no_data us uk →
  fst (daily_briefing E us uk yus yuk od) = Ok tt →
  ∃ df text,
    let y := frame_or_None (combined_yesterday yus yuk) in
    let cp := path_join (environ_get E "CACHE_DIR" "data")
                "velocity_streak_cache.json" in
    let path := od +:+ "/SUMMARY_REPORT_" +:+ today E +:+ ".txt" in
    generate_daily_briefing E df y od cp = Ok text ∧
    append_summary E path text = Ok tt ∧
    snd (daily_briefing E us uk yus yuk od) =
      [GenerateDailyBriefing df y od cp; AppendSummary path text].
Proof.
  intros Hdata. unfold daily_briefing. prog_simpl.
  destruct (concat_markets_returns us uk Hdata) as (df0 & -> & Hne). cbn.
  rewrite bool_decide_eq_true_2 by (destruct df0; [done | cbn; lia]). cbn.
  destruct (calculate_metrics E _) as [df1|e]; cbn; [|done].
  destruct (apply_each (get_author_name E) df1) as [authors|e]; cbn; [|done].
  destruct (apply_each (detect_ai E) _) as [ai|e]; cbn; [|done].
  destruct (calculate_status E _ _) as [df2|e]; cbn; [|done].
  match goal with |- context [generate_daily_briefing E ?d ?y ?o ?c] =>
    destruct (generate_daily_briefing E d y o c) as [text|e] eqn:Hg end;
    cbn; [|done].
  match goal with |- context [append_summary E ?p ?t] =>
    destruct (append_summary E p t) as [[]|e] eqn:Ha end; cbn; [|done].
  intros _. eexists _, text. cbn zeta. by rewrite Hg, Ha.
Qed.

(** ** What leaves the enhancement stage *)

(** X5.  [run_v35_enhancements] makes at most one outside call, and an
    exception leaves it in three ways only: the import raised something
    other than [ImportError], one of the two frames could not be
    prepared, or [integrate_with_daily_processor] raised something that
    is no [Exception]. *)
Theorem run_v35_enhancements_escapes (E : Env) (us uk yus yuk : Records)
    (od cd : string) :
  (length (snd (run_v35_enhancements E us uk yus yuk od cd)) ≤ 1)%nat ∧
  ∀ e, fst (run_v35_enhancements E us uk yus yuk od cd) = Raise e →
    (import_v35_enhancements E = Raise e ∧ is_ImportError e = false) ∨
    prepare_frame E us yus uk US_ONLY = Raise e ∨
    prepare_frame E uk yuk us UK_ONLY = Raise e ∨
    (is_Exception e = false ∧
     ∃ us_df uk_df,
       integrate_with_daily_processor E us_df uk_df
         (frame_or_None yus) (frame_or_None yuk) od = Raise e).
Proof.
  rewrite run_v35_enhancements_spec.
  destruct (import_v35_enhancements E) as [[]|e0].
  - destruct (prepare_frame E us _ _ _) as [us_df|e1].
    + destruct (prepare_frame E uk _ _ _) as [uk_df|e2].
      * cbn zeta.
        destruct (integrate_with_daily_processor E us_df uk_df _ _ od)
          as [files|e3] eqn:Hg; cbn [fst snd].
        -- split; [cbn; lia | by intros e [=]].
        -- split; [cbn; lia|]. intros e.
           destruct (is_Exception e3) eqn:He3; [by intros [=]|].
           intros [= <-]. do 3 right. split; [done|]. by exists us_df, uk_df.
      * split; [cbn; lia|]. intros e [= <-]. right. right. by left.
    + split; [cbn; lia|]. intros e [= <-]. right. by left.
  - destruct (is_ImportError e0) eqn:Hi; cbn [fst snd].
    + split; [cbn; lia | by intros e [=]].
    + split; [cbn; lia|]. intros e [= <-]. by left.
Qed.

(** X6.  The preparation of the frames (lines 43-77) sits outside both
    [try] blocks: when it raises for either market, on a run that has
    created its directories, [main] ends with that exception right after
    standard processing, and neither the cache writer nor the Notifier is
    called. *)
Theorem main_stops_when_preparation_fails (E : Env) (us uk : Records)
    (um km : Music) (yus yuk : Records) (stats : Stats) (e : exn) :
  let od := environ_get E "OUTPUT_DIR" "output" in
  let cd := environ_get E "CACHE_DIR" "data" in
  makedirs E od = Ok tt →
  makedirs E cd = Ok tt →
  fetch_all_data E = Ok (us, uk, um, km) →
  ¬ no_data us uk →
  load_yesterday_cache E cd = Ok (yus, yuk) →
  process_data E us uk um km yus yuk od cd = Ok stats →
  import_v35_enhancements E = Ok tt →
  (prepare_frame E us yus uk US_ONLY = Raise e ∨
   (returns (prepare_frame E us yus uk US_ONLY) ∧
    prepare_frame E uk yuk us UK_ONLY = Raise e)) →
  main E = (Raise e, [ProcessData us uk um km yus yuk od cd]).
Proof.
  intros od cd Hmo Hmc Hfetch Hdata Hload Hpd Hi Hprep.
  assert (run_v35_enhancements E us uk yus yuk od cd = (Raise e, [])) as Henh.
  { rewrite run_v35_enhancements_spec, Hi.
    destruct Hprep as [->|[[us_df ->] ->]]; done. }
  rewrite main_spec. cbn zeta. fold od cd. rewrite Hmo, Hmc, Hfetch.
  assert (negb (truthy us) && negb (truthy uk) = false) as ->.
  { unfold no_data in Hdata. destruct (truthy us), (truthy uk); try done.
    exfalso. by apply Hdata. }
  by rewrite Hload, Hpd, Henh.
Qed.

(** ** The order of the calls *)

Definition cache_or_notifier_event (ev : event) : Prop :=
  match ev with
  | SaveTodayCache _ _ _ | SendDiscordNotification _ => True
  | _ => False
  end.

Lemma main_calls_before_cache (E : Env) us uk um km yus yuk od cd :
  Forall (λ ev, ¬ cache_or_notifier_event ev)
    (ProcessData us uk um km yus yuk od cd
       :: snd (run_v35_enhancements E us uk yus yuk od cd) ++
          snd (try_except is_Exception
                 (daily_briefing E us uk yus yuk od) (λ _, mret tt))).
Proof.
  apply Forall_cons. split; [by intros []|].
  apply Forall_app. split.
  - eapply Forall_impl; [apply run_v35_enhancements_events|].
    by intros [] H [].
  - rewrite try_except_trace.
    eapply Forall_impl; [apply daily_briefing_events|].
    by intros [] H [].
Qed.

(** X7.  The Notifier is the last call of a run and is made at most once,
    directly after a call of [save_today_cache] that returned: a run whose
    cache write raises sends no notification, and no call before the
    cache write touches the cache or the Notifier. *)
Theorem notifier_called_after_cache_saved (E : Env) (stats' : Stats) :
  SendDiscordNotification stats' ∈ snd (main E) →
  ∃ before us_df uk_df cd,
    snd (main E) =
      before ++ [SaveTodayCache us_df uk_df cd; SendDiscordNotification stats'] ∧
    save_today_cache E us_df uk_df cd = Ok tt ∧
    Forall (λ ev, ¬ cache_or_notifier_event ev) before.
Proof.
  rewrite main_spec. cbn zeta.
  set (od := environ_get E "OUTPUT_DIR" "output").
  set (cd := environ_get E "CACHE_DIR" "data").
  destruct (makedirs E od) as [[]|e0]; [|by intros H; inversion H].
  destruct (makedirs E cd) as [[]|e0]; [|by intros H; inversion H].
  destruct (fetch_all_data E) as [[[[us uk] um] km]|e0];
    [|by intros H; inversion H].
  destruct (negb (truthy us) && negb (truthy uk)); [by intros H; inversion H|].
  destruct (load_yesterday_cache E cd) as [[yus yuk]|e0];
    [|by intros H; inversion H].
  pose proof (main_calls_before_cache E us uk um km yus yuk od cd) as Hbefore.
  set (pd := ProcessData us uk um km yus yuk od cd) in *.
  set (enh := run_v35_enhancements E us uk yus yuk od cd) in *.
  set (br := try_except is_Exception (daily_briefing E us uk yus yuk od)
               (λ _, mret tt)) in *.
  assert (∀ ev, cache_or_notifier_event ev → ev ∉ pd :: snd enh ++ snd br)
    as Hnot.
  { intros ev Hev Hin. rewrite Forall_forall in Hbefore. by apply (Hbefore ev). }
  assert (∀ ev, cache_or_notifier_event ev → ev ∉ snd enh) as Hnot_enh.
  { intros ev Hev Hin. apply (Hnot ev Hev). right. apply elem_of_app. by left. }
  destruct (process_data E us uk um km yus yuk od cd) as [stats|e0].
  2:{ cbn [snd]. rewrite list_elem_of_singleton. by intros [=]. }
  destruct (fst enh) as [files|e0].
  2:{ cbn [snd]. rewrite elem_of_cons. intros [[=]|Hin].
      by apply Hnot_enh in Hin. }
  destruct (fst br) as [[]|e0].
  2:{ cbn [snd]. intros Hin. by apply Hnot in Hin. }
  destruct (snapshot E us) as [us_df|e0].
  2:{ cbn [snd]. intros Hin. by apply Hnot in Hin. }
  destruct (snapshot E uk) as [uk_df|e0].
  2:{ cbn [snd]. intros Hin. by apply Hnot in Hin. }
  destruct (save_today_cache E us_df uk_df cd) as [[]|e0] eqn:Hsave; cbn [snd].
  - rewrite app_comm_cons, app_assoc. intros Hin.
    apply elem_of_app in Hin as [Hin|Hin]; [by apply Hnot in Hin|].
    apply elem_of_cons in Hin as [[=]|Hin].
    apply list_elem_of_singleton in Hin as [= <-].
    by exists (pd :: snd enh ++ snd br), us_df, uk_df, cd.
  - rewrite app_comm_cons, app_assoc. intros Hin.
    apply elem_of_app in Hin as [Hin|Hin]; [by apply Hnot in Hin|].
    apply list_elem_of_singleton in Hin. discriminate Hin.
Qed.

(** ** Yesterday's combined cache *)

(** X8.  The four branches of lines 202-208 amount to one
    concatenation: the combined cache holds the US records followed by
    the UK records, it is truthy exactly when one of the two caches is,
    and it is [None] when neither is. *)
Theorem combined_yesterday_concatenates (yus yuk : Records) :
  list_of (combined_yesterday yus yuk) = list_of yus ++ list_of yuk ∧
  truthy (combined_yesterday yus yuk) = truthy yus || truthy yuk ∧
  (truthy yus = false → truthy yuk = false → combined_yesterday yus yuk = None).
Proof.
  unfold combined_yesterday.
  destruct yus as [[|a l]|], yuk as [[|b l']|]; cbn;
    rewrite ?app_nil_r; by repeat split.
Qed.

(** ** The frames the collaborators are handed *)

Lemma integrate_call_args (E : Env) (us uk yus yuk : Records) (od cd : string)
    (us_df uk_df : DataFrame) (y_us y_uk : option DataFrame) (o : string) :
  IntegrateWithDailyProcessor us_df uk_df y_us y_uk o
    ∈ snd (run_v35_enhancements E us uk yus yuk od cd) →
  prepare_frame E us yus uk US_ONLY = Ok us_df ∧
  prepare_frame E uk yuk us UK_ONLY = Ok uk_df ∧
  y_us = frame_or_None yus ∧ y_uk = frame_or_None yuk ∧ o = od.
Proof.
  rewrite run_v35_enhancements_spec.
  destruct (import_v35_enhancements E) as [[]|e];
    [|destruct (is_ImportError e); intros H; inversion H].
  destruct (prepare_frame E us _ _ _) as [a|e]; [|intros H; inversion H].
  destruct (prepare_frame E uk _ _ _) as [b|e]; [|intros H; inversion H].
  cbn. rewrite list_elem_of_singleton. by intros [= -> -> -> -> ->].
Qed.

Lemma urls_nil_inv (df : DataFrame) : urls df = [] → df = [].
Proof. by destruct df. Qed.

Lemma prepared_frame_normalised (E : Env) (data yesterday other : Records)
    (single : MarketTag) (df : DataFrame) :
  keeps_urls (calculate_metrics E) →
  keeps_urls (λ df, calculate_status E df yesterday) →
  prepare_frame E data yesterday other single = Ok df →
  urls df = urls (drop_duplicates (frame_or_empty data)) ∧
  NoDup (urls df) ∧
  (df = [] ↔ truthy data = false).
Proof.
  intros Hcm Hcs Hp.
  pose proof (prepare_frame_urls E _ _ _ _ _ Hcm Hcs Hp) as Hu.
  split; [done|]. split; [rewrite Hu; apply drop_duplicates_NoDup|].
  split.
  - intros ->. symmetry in Hu. apply urls_nil_inv, drop_duplicates_nil_inv in Hu.
    rewrite truthy_frame, Hu. done.
  - intros Ht. apply urls_nil_inv. rewrite Hu.
    unfold frame_or_empty. by rewrite Ht.
Qed.

(** X9.  With [calculate_metrics] and [calculate_status] keeping the URL
    column, the enhancement collaborator is handed, for each market, a
    frame with the URLs of the deduplicated raw data in their order (so no
    URL twice), empty exactly when that market has no data, together with
    yesterday's caches as frames ([None] for a cache that is missing or
    empty) and the output directory. *)
Theorem enhancement_frames_normalised (E : Env) (us uk yus yuk : Records)
    (od cd : string) (us_df uk_df : DataFrame) (y_us y_uk : option DataFrame)
    (o : string) :
  keeps_urls (calculate_metrics E) →
  (∀ y, keeps_urls (λ df, calculate_status E df y)) →
  IntegrateWithDailyProcessor us_df uk_df y_us y_uk o
    ∈ snd (run_v35_enhancements E us uk yus yuk od cd) →
  (urls us_df = urls (drop_duplicates (frame_or_empty us)) ∧
   NoDup (urls us_df) ∧ (us_df = [] ↔ truthy us = false)) ∧
  (urls uk_df = urls (drop_duplicates (frame_or_empty uk)) ∧
   NoDup (urls uk_df) ∧ (uk_df = [] ↔ truthy uk = false)) ∧
  y_us = frame_or_None yus ∧ y_uk = frame_or_None yuk ∧ o = od.
Proof.
  intros Hcm Hcs (Hus & Huk & -> & -> & ->)%integrate_call_args.
  split; [by eapply prepared_frame_normalised|].
  split; [by eapply prepared_frame_normalised|]. done.
Qed.

(** X10.  With [calculate_metrics] and [calculate_status] keeping the URL
    column, the frame handed to [generate_daily_briefing] has no URL
    twice and holds exactly the URLs found in either market's data; it
    comes with yesterday's combined cache as a frame. *)
Theorem briefing_frame_covers_both_markets (E : Env) (us uk yus yuk : Records)
    (od : string) (df : DataFrame) (y : option DataFrame) (o cp : string) :
  keeps_urls (calculate_metrics E) →
  (∀ y, keeps_urls (λ df, calculate_status E df y)) →
  GenerateDailyBriefing df y o cp ∈ snd (daily_briefing E us uk yus yuk od) →
  NoDup (urls df) ∧
  (∀ u, u ∈ urls df ↔
        u ∈ urls (frame_or_empty us) ∨ u ∈ urls (frame_or_empty uk)) ∧
  y = frame_or_None (combined_yesterday yus yuk).
Proof.
  intros Hcm Hcs. unfold daily_briefing. prog_simpl.
  destruct (concat_markets us uk) as [df0|e] eqn:Hc; cbn;
    [|intros H; inversion H].
  apply concat_markets_Ok in Hc.
  destruct (bool_decide _); cbn; [|intros H; inversion H].
  destruct (calculate_metrics E _) as [df1|e] eqn:H1; cbn;
    [|intros H; inversion H].
  destruct (apply_each (get_author_name E) df1) as [authors|e]; cbn;
    [|intros H; inversion H].
  destruct (apply_each (detect_ai E) _) as [ai|e]; cbn;
    [|intros H; inversion H].
  destruct (calculate_status E _ _) as [df2|e] eqn:H2; cbn;
    [|intros H; inversion H].
  assert (urls df2 = urls (drop_duplicates df0)) as Hu.
  { rewrite (Hcs _ _ _ H2), urls_assign, !urls_assign_series. by apply Hcm. }
  match goal with |- context [GenerateDailyBriefing ?d ?y' ?o' ?c] =>
    assert (urls d = urls (drop_duplicates df0)) as Hd
      by (destruct (has_column "status" df2); by rewrite ?urls_assign_series) end.
  intros Hin.
  assert (urls df = urls (drop_duplicates df0) ∧
          y = frame_or_None (combined_yesterday yus yuk)) as [Hdf ->].
  { destruct (generate_daily_briefing E _ _ _ _) as [text|e]; cbn in Hin.
    - apply elem_of_cons in Hin as [[= -> -> _ _]|Hin]; [done|].
      apply list_elem_of_singleton in Hin. discriminate Hin.
    - apply list_elem_of_singleton in Hin as [= -> -> _ _]. done. }
  split; [rewrite Hdf; apply drop_duplicates_NoDup|]. split; [|done].
  intros u. rewrite Hdf, drop_duplicates_urls, Hc, urls_frame.
  unfold urls. rewrite fmap_app. apply elem_of_app.
Qed.

(** ** Columns computed from the frame itself *)

Section AlignedColumns.

Implicit Types (df : DataFrame) (r : Row) (c : string).

(** A column of the frame assigned back to the frame lines up row by
    row. *)
Lemma assign_series_column c c' df :
  assign_series c (column c' df) df =
    assign c (λ r, default VNaN (cols r !! c')) df.
Proof.
  unfold column, assign. induction df as [|r df IH]; [done|].
  rewrite !fmap_cons. cbn [assign_series]. by rewrite IH.
Qed.

End AlignedColumns.

(** X11.  In the per-market frames the status is copied, not renamed, and
    only when that is safe: with a ['status'] column and no
    ['acceleration_status'] column every row gets its own status as
    ['acceleration_status'] and keeps every other cell; in every other
    case the frame is left as it is, so an ['acceleration_status'] column
    that is already there is not overwritten. *)
Theorem acceleration_status_copies_status (df : DataFrame) :
  (has_column "status" df = true →
   has_column "acceleration_status" df = false →
   map_status_column df =
     assign "acceleration_status" (λ r, default VNaN (cols r !! "status")) df ∧
   ∀ r, r ∈ map_status_column df →
     cols r !! "acceleration_status" = Some (default VNaN (cols r !! "status"))) ∧
  (has_column "status" df = false ∨ has_column "acceleration_status" df = true →
   map_status_column df = df).
Proof.
  unfold map_status_column. split.
  - intros -> ->. cbn [andb negb]. rewrite assign_series_column.
    split; [done|]. intros r' (r & Hr & ->)%elem_of_assign.
    rewrite set_col_lookup, set_col_lookup_ne by done. done.
  - intros [->| ->]; [done|]. by rewrite andb_false_r.
Qed.

(** ** A market without data *)

(** X13.  When a market's fetch is empty, the snapshot written to the
    cache for that market is the empty frame: the run replaces that
    market's cache by nothing. *)
Theorem empty_market_saves_empty_snapshot (E : Env) (us uk : Records)
    (um km : Music) (us_df uk_df : DataFrame) (cd : string) :
  fetch_all_data E = Ok (us, uk, um, km) →
  SaveTodayCache us_df uk_df cd ∈ snd (main E) →
  (truthy us = false → us_df = []) ∧ (truthy uk = false → uk_df = []).
Proof.
  intros Hfetch (us0 & uk0 & um0 & km0 & Hfetch0 & _ & Hus & Huk & _)%save_today_cache_call.
  rewrite Hfetch in Hfetch0. injection Hfetch0 as <- <- <- <-.
  split; intros Ht.
  - apply snapshot_spec in Hus as [[_ ->]|[Ht' _]]; [done | congruence].
  - apply snapshot_spec in Huk as [[_ ->]|[Ht' _]]; [done | congruence].
Qed.

Section MoreWitnesses.

Import Demo Faults.

Lemma combined_frame_urls_witness :
  urls (drop_duplicates
          (frame (frame_or_empty (Some us_raw) ++ frame_or_empty (Some uk_raw)))) =
    urls (drop_duplicates (frame_or_empty (Some us_raw))) ++
    filter (λ u, u ∉ urls (frame_or_empty (Some us_raw)))
      (urls (drop_duplicates (frame_or_empty (Some uk_raw)))).
Proof.
  apply (combined_frame_urls (Some us_raw) (Some uk_raw)).
  reflexivity.
Defined.

Lemma briefing_completes_by_appending_witness :
  ∃ df text,
    let y := frame_or_None (combined_yesterday None None) in
    let cp := path_join (environ_get enhanced_env "CACHE_DIR" "data")
                "velocity_streak_cache.json" in
    let path := "output" +:+ "/SUMMARY_REPORT_" +:+ today enhanced_env +:+ ".txt" in
    generate_daily_briefing enhanced_env df y "output" cp = Ok text ∧
    append_summary enhanced_env path text = Ok tt ∧
    snd (daily_briefing enhanced_env (Some us_raw) (Some uk_raw) None None "output") =
      [GenerateDailyBriefing df y "output" cp; AppendSummary path text].
Proof.
  apply (briefing_completes_by_appending enhanced_env
           (Some us_raw) (Some uk_raw) None None "output").
  - intros [H _]. discriminate H.
  - vm_compute. reflexivity.
Defined.

Lemma main_stops_when_preparation_fails_witness :
  main failing_status_env =
    (Raise (Exception "unreadable cache"),
     [ProcessData (Some us_raw) (Some uk_raw) None None None None
        (environ_get failing_status_env "OUTPUT_DIR" "output")
        (environ_get failing_status_env "CACHE_DIR" "data")]).
Proof.
  apply (main_stops_when_preparation_fails failing_status_env
           (Some us_raw) (Some uk_raw) None None None None standard_stats).
  - reflexivity.
  - reflexivity.
  - reflexivity.
  - intros [H _]. discriminate H.
  - reflexivity.
  - reflexivity.
  - reflexivity.
  - left. vm_compute. reflexivity.
Defined.

Lemma notifier_called_after_cache_saved_witness :
  ∃ before us_df uk_df cd,
    snd (main demo_env) =
      before ++ [SaveTodayCache us_df uk_df cd;
                 SendDiscordNotification standard_stats] ∧
    save_today_cache demo_env us_df uk_df cd = Ok tt ∧
    Forall (λ ev, ¬ cache_or_notifier_event ev) before.
Proof.
  apply (notifier_called_after_cache_saved demo_env standard_stats).
  vm_compute. do 4 right. left.
Defined.

Lemma enhancement_frames_normalised_witness :
  (urls us_frame = urls (drop_duplicates (frame_or_empty (Some us_raw))) ∧
   NoDup (urls us_frame) ∧ (us_frame = [] ↔ truthy (Some us_raw) = false)) ∧
  (urls uk_frame = urls (drop_duplicates (frame_or_empty (Some uk_raw))) ∧
   NoDup (urls uk_frame) ∧ (uk_frame = [] ↔ truthy (Some uk_raw) = false)) ∧
  (None : option DataFrame) = frame_or_None None ∧
  (None : option DataFrame) = frame_or_None None ∧
  "output" = "output".
Proof.
  apply (enhancement_frames_normalised demo_env (Some us_raw) (Some uk_raw)
           None None "output" "data" us_frame uk_frame None None "output"
           demo_keeps_urls_metrics demo_keeps_urls_status).
  rewrite run_v35_enhancements_spec. cbn [import_v35_enhancements demo_env].
  rewrite prepare_us_frame, prepare_uk_frame. left.
Defined.

Lemma briefing_frame_covers_both_markets_witness :
  ∃ df y o cp,
    GenerateDailyBriefing df y o cp
      ∈ snd (daily_briefing demo_env (Some us_raw) (Some uk_raw) None None "output") ∧
    NoDup (urls df) ∧
    (∀ u, u ∈ urls df ↔
          u ∈ urls (frame_or_empty (Some us_raw)) ∨
          u ∈ urls (frame_or_empty (Some uk_raw))) ∧
    y = frame_or_None (combined_yesterday None None).
Proof.
  assert (∃ df y o cp,
            GenerateDailyBriefing df y o cp
              ∈ snd (daily_briefing demo_env (Some us_raw) (Some uk_raw)
                       None None "output")) as (df & y & o & cp & Hin).
  { vm_compute. eexists _, _, _, _. left. }
  exists df, y, o, cp. split; [done|].
  apply (briefing_frame_covers_both_markets demo_env (Some us_raw) (Some uk_raw)
           None None "output" df y o cp
           demo_keeps_urls_metrics demo_keeps_urls_status Hin).
Defined.

Lemma empty_market_saves_empty_snapshot_witness :
  ∃ us_df uk_df cd,
    SaveTodayCache us_df uk_df cd ∈ snd (main uk_only_env) ∧
    us_df = [] ∧ uk_df ≠ [].
Proof.
  assert (∃ us_df uk_df cd,
            SaveTodayCache us_df uk_df cd ∈ snd (main uk_only_env) ∧ uk_df ≠ [])
    as (us_df & uk_df & cd & Hin & Hne).
  { vm_compute. eexists _, _, _. split; [do 4 right; left | discriminate]. }
  exists us_df, uk_df, cd. split; [done|]. split; [|done].
  by apply (empty_market_saves_empty_snapshot uk_only_env None (Some uk_raw)
              None None us_df uk_df cd eq_refl Hin).
Defined.

End MoreWitnesses.
